(** * Parts-extraction front end: a shallow embedding of the React [App]
    component (src/unnamed/part_001, with the variants of
    src/unnamed/part_000 and src/frontend/src/App.jsx), together with the
    parts of the FastAPI back end that the front end relies on, modelled
    from the specification.

    Asynchronous handlers are split at their single [await]: a [_begin]
    function runs the synchronous prefix and returns the HTTP request it
    posts, a [_finish] function runs the continuation once the response
    (or the rejection) is known.  React state setters called with a value
    are modelled as record updates applied to the state current at the
    moment the continuation runs. *)

From Stdlib Require Import List String Ascii ZArith NArith Bool Lia.
From Stdlib Require Import DecimalString Permutation.
From Stdlib Require DecimalN DecimalNat DecimalZ.
Import ListNotations.
Open Scope string_scope.

(** ** Browser values *)

(** A [File] object, reduced to the three fields the signature uses. *)
Record File := mkFile {
  name : string;
  size : N;
  lastModified : Z
}.

(** Template-literal rendering of a JS number. *)
Definition js_string_of_N (n : N) : string := NilZero.string_of_uint (N.to_uint n).
Definition js_string_of_Z (z : Z) : string := NilZero.string_of_int (Z.to_int z).

(** [`${file.name}-${file.size}-${file.lastModified}`] *)
Definition signature (f : File) : string :=
  name f ++ "-" ++ js_string_of_N (size f) ++ "-" ++ js_string_of_Z (lastModified f).

(** A [FormData] body: its entries in append order. *)
Inductive FormValue :=
| FVFile (f : File)
| FVStr (s : string).

Definition FormData := list (string * FormValue).

Definition append (fd : FormData) (k : string) (v : FormValue) : FormData :=
  (fd ++ [(k, v)])%list.

(** [files.forEach((file) => formData.append("files", file))] *)
Definition append_files (fd : FormData) (files : list File) : FormData :=
  fold_left (fun acc f => append acc "files" (FVFile f)) files fd.

(** [v ?? d]; [None] stands for [undefined] or [null]. *)
Definition nullish (v : option string) (d : string) : string :=
  match v with Some s => s | None => d end.

(** [FormData.get]: the first entry with the given key. *)
Fixpoint form_get (k : string) (fd : FormData) : option FormValue :=
  match fd with
  | [] => None
  | (k', v) :: rest => if String.eqb k k' then Some v else form_get k rest
  end.

(** ** Request builders *)

(** [toFormData] of part_001 and src/frontend/src/App.jsx. *)
Definition toFormData (files : list File) (lValue wValue : string)
    (tValue : option string) (returnCsv : bool) : FormData :=
  let fd := append_files [] files in
  let fd := append fd "l_value" (FVStr lValue) in
  let fd := append fd "w_value" (FVStr wValue) in
  let fd := append fd "t_value" (FVStr (nullish tValue "")) in
  append fd "return_csv" (FVStr (if returnCsv then "true" else "false")).

(** [toFormData] of part_000 ("theirs" side): [t_value] is appended only
    when [tValue] is neither [undefined], [null] nor empty. *)
Definition toFormData_part000 (files : list File) (lValue wValue : string)
    (tValue : option string) (returnCsv : bool) : FormData :=
  let fd := append_files [] files in
  let fd := append fd "l_value" (FVStr lValue) in
  let fd := append fd "w_value" (FVStr wValue) in
  let fd := match tValue with
            | Some t => if Nat.ltb 0 (String.length t) then append fd "t_value" (FVStr t) else fd
            | None => fd
            end in
  append fd "return_csv" (FVStr (if returnCsv then "true" else "false")).

Definition toPartsTableFormData (files : list File)
    (lValue wValue tValue : option string) : FormData :=
  let fd := append_files [] files in
  let fd := append fd "l_value" (FVStr (nullish lValue "")) in
  let fd := append fd "w_value" (FVStr (nullish wValue "")) in
  append fd "t_value" (FVStr (nullish tValue "")).

Definition toLinesCsvFormData (files : list File) : FormData :=
  append_files [] files.

(** ** Responses and the displayed rows *)

(** One element of the JSON array returned by
    [/api/extract_part_numbers_from_table]. *)
Record Entry := mkEntry {
  entry_file_name : string;
  part_numbers : list string
}.

(** One row of the results table. *)
Record Row := mkRow {
  file_name : string;
  part_number : string
}.

(** [response.data.flatMap((entry) => entry.part_numbers.map((partNumber) =>
      ({ file_name: entry.file_name, part_number: partNumber })))] *)
Definition flatten (data : list Entry) : list Row :=
  flat_map (fun entry => map (fun partNumber => mkRow (entry_file_name entry) partNumber)
                             (part_numbers entry)) data.

(** Outcome of an [axios.post]: the response data, or a rejection carrying
    [err.response?.data?.detail] ([None] when absent). *)
Inductive Outcome (A : Type) :=
| Ok (data : A)
| Err (detail : option string).
Arguments Ok {A} data.
Arguments Err {A} detail.

(** [err.response?.data?.detail || fallback] *)
Definition errmsg (detail : option string) (fallback : string) : string :=
  match detail with
  | Some d => if String.eqb d "" then fallback else d
  | None => fallback
  end.

Record Request := mkRequest {
  req_url : string;
  req_form : FormData;
  req_blob : bool   (* [responseType: "blob"] *)
}.

(** A [Blob] handed to the browser through an [<a download>] link. *)
Record Download := mkDownload {
  dl_type : string;
  dl_name : string;
  dl_content : string
}.

(** ** The component state of part_001 *)

Record AppState := mkState {
  files : list File;
  lValue : string;
  wValue : string;
  tValue : string;
  results : list Row;
  error : string;
  isLoading : bool;
  hasSearched : bool
}.

Definition setFiles (v : list File) (s : AppState) : AppState :=
  mkState v (lValue s) (wValue s) (tValue s) (results s) (error s) (isLoading s) (hasSearched s).
Definition setLValue (v : string) (s : AppState) : AppState :=
  mkState (files s) v (wValue s) (tValue s) (results s) (error s) (isLoading s) (hasSearched s).
Definition setWValue (v : string) (s : AppState) : AppState :=
  mkState (files s) (lValue s) v (tValue s) (results s) (error s) (isLoading s) (hasSearched s).
Definition setTValue (v : string) (s : AppState) : AppState :=
  mkState (files s) (lValue s) (wValue s) v (results s) (error s) (isLoading s) (hasSearched s).
Definition setResults (v : list Row) (s : AppState) : AppState :=
  mkState (files s) (lValue s) (wValue s) (tValue s) v (error s) (isLoading s) (hasSearched s).
Definition setError (v : string) (s : AppState) : AppState :=
  mkState (files s) (lValue s) (wValue s) (tValue s) (results s) v (isLoading s) (hasSearched s).
Definition setIsLoading (v : bool) (s : AppState) : AppState :=
  mkState (files s) (lValue s) (wValue s) (tValue s) (results s) (error s) v (hasSearched s).
Definition setHasSearched (v : bool) (s : AppState) : AppState :=
  mkState (files s) (lValue s) (wValue s) (tValue s) (results s) (error s) (isLoading s) v.

(** Initial state: [useState] defaults of part_001. *)
Definition initialState : AppState :=
  mkState [] "20" "4" "2" [] "" false false.

(** [isSearchDisabled = useMemo(() => files.length === 0, [files])] *)
Definition isSearchDisabled (s : AppState) : bool :=
  Nat.eqb (List.length (files s)) 0.

Definition isLinesCsvDisabled (s : AppState) : bool :=
  Nat.eqb (List.length (files s)) 0.

(** ** Handlers of part_001 *)

(** [existingSignatures.has(signature)] *)
Definition has_signature (existing : list string) (sig : string) : bool :=
  existsb (String.eqb sig) existing.

(** [handleFileChange]: an empty selection returns early; otherwise the
    previous list is kept and the selected files whose signature is not
    among the previous ones are appended, and [hasSearched] is reset. *)
Definition handleFileChange (selectedFiles : list File) (s : AppState) : AppState :=
  match selectedFiles with
  | [] => s
  | _ =>
      let prev := files s in
      let existingSignatures := map signature prev in
      let merged := (prev ++ filter (fun file =>
                        negb (has_signature existingSignatures (signature file)))
                        selectedFiles)%list in
      setHasSearched false (setFiles merged s)
  end.

(** [handleFileChange] of part_000: the same merge written as a loop that
    pushes each selected file whose key is not in [existing]. *)
Definition handleFileChange_part000 (selected : list File) (prev : list File) : list File :=
  match selected with
  | [] => prev
  | _ =>
      let existing := map signature prev in
      fold_left (fun merged f =>
                   if has_signature existing (signature f) then merged
                   else (merged ++ [f])%list) selected prev
  end.

(** [prev.filter((_, index) => index !== indexToRemove)] *)
Fixpoint remove_index {A} (i : nat) (l : list A) : list A :=
  match l, i with
  | [], _ => []
  | _ :: t, O => t
  | x :: t, S i' => x :: remove_index i' t
  end.

Definition handleRemoveFile (indexToRemove : nat) (s : AppState) : AppState :=
  setHasSearched false (setFiles (remove_index indexToRemove (files s)) s).

Definition handleClear (s : AppState) : AppState :=
  setHasSearched false (setError "" (setResults [] (setFiles [] s))).

(** [executeSearch({ returnCsv, silent })] up to its [await]. *)
Definition executeSearch_begin (returnCsv silent : bool) (s : AppState)
    : option (AppState * Request) :=
  if isSearchDisabled s then None
  else
    let s := if negb returnCsv && negb silent then setIsLoading true s else s in
    let s := setError "" s in
    if returnCsv then
      Some (s, mkRequest "/api/search"
                 (toFormData (files s) (lValue s) (wValue s) (Some (tValue s)) true) true)
    else
      Some (s, mkRequest "/api/extract_part_numbers_from_table"
                 (toPartsTableFormData (files s) (Some (lValue s)) (Some (wValue s))
                    (Some (tValue s))) false).

Definition msg_csv_failed : string := "CSVダウンロードに失敗しました。".
Definition msg_search_failed : string := "検索中にエラーが発生しました。".
Definition msg_lines_csv_failed : string := "PDF行CSVダウンロードに失敗しました。".

(** [err.response?.data?.detail] of a request posted with
    [responseType: "blob"]: the error body arrives as a [Blob], which has
    no [detail] property, so whatever the server sent the lookup gives
    [undefined]. *)
Definition blob_detail (server_detail : option string) : option string := None.

(** The rest of [executeSearch] when [returnCsv] is true. *)
Definition executeSearch_finish_csv (silent : bool) (s : AppState) (o : Outcome string)
    : AppState * list Download :=
  match o with
  | Ok data => (s, [mkDownload "text/csv" "search_results.csv" data])
  | Err detail => (setError (errmsg (blob_detail detail) msg_csv_failed) s, [])
  end.

(** The rest of [executeSearch] when [returnCsv] is false, including the
    [finally] clause. *)
Definition executeSearch_finish_json (silent : bool) (s : AppState) (o : Outcome (list Entry))
    : AppState :=
  let s := match o with
           | Ok data => setResults (flatten data) s
           | Err detail => setError (errmsg detail msg_search_failed) s
           end in
  if negb silent then setIsLoading false s else s.

(** A call of [executeSearch] whose response arrives before any other event. *)
Definition executeSearch_json (silent : bool) (s : AppState) (o : Outcome (list Entry))
    : AppState * option Request :=
  match executeSearch_begin false silent s with
  | None => (s, None)
  | Some (s1, req) => (executeSearch_finish_json silent s1 o, Some req)
  end.

Definition executeSearch_csv (s : AppState) (o : Outcome string)
    : AppState * option Request * list Download :=
  match executeSearch_begin true false s with
  | None => (s, None, [])
  | Some (s1, req) =>
      let '(s2, dls) := executeSearch_finish_csv false s1 o in (s2, Some req, dls)
  end.

(** [handleDownloadPartsListCsv] *)
Definition handleDownloadPartsListCsv (s : AppState) (o : Outcome string)
    : AppState * option Request * list Download :=
  if isSearchDisabled s then (s, None, [])
  else
    let s := setError "" s in
    let req := mkRequest "/api/extract_parts_list_csv"
                 (toPartsTableFormData (files s) (Some (lValue s)) (Some (wValue s))
                    (Some (tValue s))) true in
    match o with
    | Ok data => (s, Some req, [mkDownload "text/csv" "parts_list.csv" data])
    | Err detail => (setError (errmsg (blob_detail detail) msg_csv_failed) s, Some req, [])
    end.

(** [handleDownloadLinesCsv] *)
Definition handleDownloadLinesCsv (s : AppState) (o : Outcome string)
    : AppState * option Request * list Download :=
  if isLinesCsvDisabled s then (s, None, [])
  else
    let s := setError "" s in
    let req := mkRequest "/api/extract_lines_csv" (toLinesCsvFormData (files s)) true in
    match o with
    | Ok data => (s, Some req, [mkDownload "text/csv" "pdf_lines.csv" data])
    | Err detail => (setError (errmsg (blob_detail detail) msg_lines_csv_failed) s, Some req, [])
    end.

(** ** Event-level model of part_001 with its automatic re-search

    A run is a sequence of events: user actions and responses of the
    server.  A response settles any in-flight search: [EvRespondAt i]
    the [i]-th one, [EvRespond] the oldest.  A CSV download button posts its
    request and gets its response within one event: its handler changes
    no state but [error], on which no effect depends.  [sent] records the
    search requests (manual and silent), the ones the effect can repeat.
    After every event React commits the new state and runs
    the effect
    [useEffect(() => { if (!hasSearched) return; executeSearch({ silent: true }); },
               [executeSearch, hasSearched])],
    which fires when one of its dependencies changed since its last run.
    [executeSearch] is a [useCallback] over
    [files, lValue, wValue, tValue, isSearchDisabled]; [files] is compared
    by reference, so every [setFiles] gives a new version number. *)
Module Runtime.

Inductive Pending :=
| PManual   (* the [await executeSearch()] of [handleSearch] *)
| PSilent.  (* an [executeSearch({ silent: true })] of the effect *)

Definition pending_eqb (a b : Pending) : bool :=
  match a, b with
  | PManual, PManual | PSilent, PSilent => true
  | _, _ => false
  end.

Inductive Event :=
| EvSelect (selected : list File)          (* [onChange] of the file input *)
| EvRemove (index : nat)                   (* [onDelete] of a chip *)
| EvClear                                  (* the clear button *)
| EvClickSearch                            (* the search button *)
| EvSetL (v : string)
| EvSetW (v : string)
| EvSetT (v : string)
| EvRespond (o : Outcome (list Entry))     (* the oldest in-flight search settles *)
| EvRespondAt (i : nat) (o : Outcome (list Entry))
                                           (* the [i]-th in-flight search settles *)
| EvDownloadPartsListCsv (o : Outcome string)   (* the parts-list CSV button *)
| EvDownloadLinesCsv (o : Outcome string).      (* the PDF-lines CSV button *)

(** Dependencies of the effect: the version of [files], [lValue],
    [wValue], [tValue], [isSearchDisabled] and [hasSearched]. *)
Definition Deps : Type := (nat * string * string * string * bool * bool)%type.

Definition deps_of (ver : nat) (s : AppState) : Deps :=
  (ver, lValue s, wValue s, tValue s, isSearchDisabled s, hasSearched s).

Definition deps_eqb (a b : Deps) : bool :=
  let '(v1, l1, w1, t1, d1, h1) := a in
  let '(v2, l2, w2, t2, d2, h2) := b in
  Nat.eqb v1 v2 && String.eqb l1 l2 && String.eqb w1 w2 && String.eqb t1 t2
  && Bool.eqb d1 d2 && Bool.eqb h1 h2.

Record Runtime := mkRuntime {
  app : AppState;
  files_ver : nat;
  last_deps : Deps;
  pending : list Pending;
  (* posted searches: index of the event that posted it, kind, files sent *)
  sent : list (nat * Pending * list File)
}.

Definition with_app (s : AppState) (r : Runtime) : Runtime :=
  mkRuntime s (files_ver r) (last_deps r) (pending r) (sent r).

Definition with_new_files (s : AppState) (r : Runtime) : Runtime :=
  mkRuntime s (S (files_ver r)) (last_deps r) (pending r) (sent r).

Definition post (k : nat) (p : Pending) (s : AppState) (r : Runtime) : Runtime :=
  mkRuntime s (files_ver r) (last_deps r) (pending r ++ [p])%list
            (sent r ++ [(k, p, files s)])%list.

Definition settle (s : AppState) (rest : list Pending) (r : Runtime) : Runtime :=
  mkRuntime s (files_ver r) (last_deps r) rest (sent r).

Definition handle_event (k : nat) (r : Runtime) (ev : Event) : Runtime :=
  let s := app r in
  match ev with
  | EvSelect selected =>
      match selected with
      | [] => r
      | _ => with_new_files (handleFileChange selected s) r
      end
  | EvRemove i => with_new_files (handleRemoveFile i s) r
  | EvClear => with_new_files (handleClear s) r
  | EvClickSearch =>
      (* [disabled={isSearchDisabled || isLoading}], then [handleSearch] *)
      if isSearchDisabled s || isLoading s then r
      else match executeSearch_begin false false s with
           | None => r
           | Some (s', _) => post k PManual s' r
           end
  | EvSetL v => with_app (setLValue v s) r
  | EvSetW v => with_app (setWValue v s) r
  | EvSetT v => with_app (setTValue v s) r
  | EvRespond o =>
      match pending r with
      | [] => r
      | PManual :: rest =>
          (* [await executeSearch(); setHasSearched(true);] *)
          settle (setHasSearched true (executeSearch_finish_json false s o)) rest r
      | PSilent :: rest =>
          settle (executeSearch_finish_json true s o) rest r
      end
  | EvRespondAt i o =>
      match nth_error (pending r) i with
      | None => r
      | Some PManual =>
          settle (setHasSearched true (executeSearch_finish_json false s o))
                 (remove_index i (pending r)) r
      | Some PSilent =>
          settle (executeSearch_finish_json true s o) (remove_index i (pending r)) r
      end
  | EvDownloadPartsListCsv o => with_app (fst (fst (handleDownloadPartsListCsv s o))) r
  | EvDownloadLinesCsv o => with_app (fst (fst (handleDownloadLinesCsv s o))) r
  end.

Definition run_effect (k : nat) (r : Runtime) : Runtime :=
  let d := deps_of (files_ver r) (app r) in
  if deps_eqb d (last_deps r) then r
  else
    let r := mkRuntime (app r) (files_ver r) d (pending r) (sent r) in
    if hasSearched (app r) then
      match executeSearch_begin false true (app r) with
      | None => r
      | Some (s', _) => post k PSilent s' r
      end
    else r.

Definition step (k : nat) (r : Runtime) (ev : Event) : Runtime :=
  run_effect k (handle_event k r ev).

Fixpoint run_from (k : nat) (r : Runtime) (evs : list Event) : Runtime :=
  match evs with
  | [] => r
  | ev :: evs' => run_from (S k) (step k r ev) evs'
  end.

(** After mount: the effect has run once, with [hasSearched] false. *)
Definition init : Runtime :=
  mkRuntime initialState 0 (deps_of 0 initialState) [] [].

Definition run (evs : list Event) : Runtime := run_from 0 init evs.

Definition is_file_change (ev : Event) : bool :=
  match ev with
  | EvSelect (_ :: _) | EvRemove _ | EvClear => true
  | _ => false
  end.

Definition is_click_search (ev : Event) : bool :=
  match ev with EvClickSearch => true | _ => false end.

(** Was a silent search posted by event [j]? *)
Definition silent_posted_at (j : nat) (r : Runtime) : bool :=
  existsb (fun '(i, p, _) => Nat.eqb i j && pending_eqb p PSilent) (sent r).

End Runtime.

(** ** Back end (not part of src/) *)

Module Backend.

(** Modelled from the spec: the DimensionCriteria of the back end (§3,
    §4.5): optional L, W and T values, an absent axis being unconstrained,
    and a fixed absolute tolerance. *)
Record Criteria := mkCriteria {
  crit_l : option Z;
  crit_w : option Z;
  crit_t : option Z;
  tolerance : Z
}.


(** Modelled from the spec: the numeric L, W and T values the Dimension
    Matcher discovers on a line (or table row) for each axis (§4.5). *)
Record LineContext := mkContext {
  ctx_l : list Z;
  ctx_w : list Z;
  ctx_t : list Z
}.

(** Modelled from the spec: one axis of the Dimension Matcher (§4.5); a
    present criterion needs a value on the line within the tolerance, an
    absent one is not checked. *)
Definition axis_ok (tol : Z) (c : option Z) (vals : list Z) : bool :=
  match c with
  | None => true
  | Some v => existsb (fun x => Z.leb (Z.abs (x - v)) tol) vals
  end.

(** Modelled from the spec: [matches(line_context, criteria)] (§4.5). *)
Definition matches (ctx : LineContext) (crit : Criteria) : bool :=
  axis_ok (tolerance crit) (crit_l crit) (ctx_l ctx)
  && axis_ok (tolerance crit) (crit_w crit) (ctx_w ctx)
  && axis_ok (tolerance crit) (crit_t crit) (ctx_t ctx).

Section Criteria_parsing.

(** The numeric syntax accepted for L, W and T, which the spec leaves open. *)
Variable parse_number : string -> option Z.

(** Modelled from the spec: one of the form fields [l_value], [w_value],
    [t_value] (§6: absent or empty means unconstrained; §7: a non-numeric
    value is an InvalidCriteria failure, [None] here). *)
Definition parse_axis (v : option FormValue) : option (option Z) :=
  match v with
  | None => Some None
  | Some (FVStr EmptyString) => Some None
  | Some (FVStr s) => match parse_number s with
                      | Some z => Some (Some z)
                      | None => None
                      end
  | Some (FVFile _) => None
  end.

(** Modelled from the spec: the criteria the back end reads from a
    request body (§6, §7). *)
Definition criteria_of_form (tol : Z) (fd : FormData) : option Criteria :=
  match parse_axis (form_get "l_value" fd), parse_axis (form_get "w_value" fd),
        parse_axis (form_get "t_value" fd) with
  | Some l, Some w, Some t => Some (mkCriteria l w t tol)
  | _, _, _ => None
  end.

End Criteria_parsing.

(** Modelled from the spec: an uploaded file, identified by its name and
    bytes (§3, SourceDocument). *)
Record SourceDocument := mkDoc {
  doc_name : string;
  doc_bytes : list Byte.byte
}.

(** Modelled from the spec: a Candidate (§3). *)
Record Candidate := mkCandidate {
  cand_part_number : string;
  cand_file_name : string;
  cand_matched_line : string;
  cand_page : nat
}.

(** Modelled from the spec: the per-file failures that are recorded and do
    not abort the batch (§4.6, §7). *)
Inductive FileError :=
| CorruptDocument
| ZeroPages.

(** Modelled from the spec: the response of a batch, candidates plus the
    response-level error annotations (§4.6). *)
Record BatchResponse := mkResponse {
  resp_candidates : list Candidate;
  resp_errors : list (string * FileError)
}.

Section Aggregation.

(** The per-file pipeline (Loader, extractors, normalizer) of one file,
    run in isolation: its candidates or its per-file failure. *)
Variable process_file : SourceDocument -> list Candidate + FileError.

(** Modelled from the spec: the contribution of one file (§4.6): its
    candidates, or none and an annotation naming it. *)
Definition file_contribution (d : SourceDocument) : BatchResponse :=
  match process_file d with
  | inl cs => mkResponse cs []
  | inr e => mkResponse [] [(doc_name d, e)]
  end.

Definition merge (a b : BatchResponse) : BatchResponse :=
  mkResponse (resp_candidates a ++ resp_candidates b)%list
             (resp_errors a ++ resp_errors b)%list.

(** Modelled from the spec: [aggregate(per-file candidate streams)] (§4.6,
    §9: an ordered collection of per-file outcomes merged at the end). *)
Definition aggregate (docs : list SourceDocument) : BatchResponse :=
  fold_right (fun d acc => merge (file_contribution d) acc) (mkResponse [] []) docs.

End Aggregation.

End Backend.

(** ** Properties stated by the specification *)

(** The uniqueness key of a parts-list row. *)
Definition row_key (r : Row) : string * string := (part_number r, file_name r).

(** [(part_number, file_name)] of [a] is lexicographically at most that of [b]. *)
Definition row_le (a b : Row) : bool :=
  match String.compare (part_number a) (part_number b) with
  | Lt => true
  | Gt => false
  | Eq => String.leb (file_name a) (file_name b)
  end.

Fixpoint rows_sorted (rs : list Row) : bool :=
  match rs with
  | a :: ((b :: _) as rest) => row_le a b && rows_sorted rest
  | _ => true
  end.

(** Number of files in [fs] with signature [sig]. *)
Definition count_sig (fs : list File) (sig : string) : nat :=
  List.length (filter (fun g => String.eqb (signature g) sig) fs).

(** A decimal parser for non-negative integers, one instance of the numeric
    syntax the back end accepts. *)
Definition parse_decimal (s : string) : option Z :=
  match NilEmpty.uint_of_string s with
  | Some u => Some (Z.of_N (N.of_uint u))
  | None => None
  end.

(** After a change of the selected files, no silent search is posted until
    the search button is clicked again. *)
Definition no_silent_search_after_change (evs : list Runtime.Event) : Prop :=
  forall k j ev, k < j -> nth_error evs k = Some ev -> Runtime.is_file_change ev = true ->
    (forall i ev', k < i <= j -> nth_error evs i = Some ev' ->
                   Runtime.is_click_search ev' = false) ->
    Runtime.silent_posted_at j (Runtime.run evs) = false.

(** Concrete inputs. *)
Definition file_a : File := mkFile "a.pdf" 1024 1700000000000.
Definition file_b : File := mkFile "b.pdf" 2048 1700000000001.
Definition state_ab : AppState := setFiles [file_a; file_b] initialState.

(** ** Rendering keys of part_001 *)

(** Template-literal rendering of an array index. *)
Definition js_string_of_nat (n : nat) : string := NilZero.string_of_uint (Nat.to_uint n).

(** [xs.map((x, index) => f(x, index))], indices starting at [i]. *)
Fixpoint mapi_from {A B : Type} (f : A -> nat -> B) (i : nat) (l : list A) : list B :=
  match l with
  | [] => []
  | x :: rest => f x i :: mapi_from f (S i) rest
  end.

(** [key={`${row.file_name}-${index}`}] of the rows of the results table. *)
Definition row_keys (rs : list Row) : list string :=
  mapi_from (fun row index => file_name row ++ "-" ++ js_string_of_nat index) 0 rs.

(** [key={`${file.name}-${file.lastModified}-${index}`}] of the file chips. *)
Definition chip_keys (fs : list File) : list string :=
  mapi_from (fun file index =>
               name file ++ "-" ++ js_string_of_Z (lastModified file) ++ "-"
               ++ js_string_of_nat index) 0 fs.

(** [xs.filter((x, index) => p(x, index))], indices starting at [i]. *)
Fixpoint filteri_from {A : Type} (p : A -> nat -> bool) (i : nat) (l : list A) : list A :=
  match l with
  | [] => []
  | x :: rest => if p x i then x :: filteri_from p (S i) rest else filteri_from p (S i) rest
  end.

(** The files a request body carries, in order: its [files] entries. *)
Definition form_files (fd : FormData) : list File :=
  flat_map (fun '(k, v) =>
              if String.eqb k "files" then match v with FVFile f => [f] | FVStr _ => [] end
              else []) fd.

(** ** [handleSearch] of part_000 (first [App]) *)

(** [toFilesFormData] of part_000. *)
Definition toFilesFormData (files : list File) : FormData :=
  append_files [] files.

(** [isSearchDisabled = files.length === 0 || isLoading] of part_000. *)
Definition isSearchDisabled_part000 (s : AppState) : bool :=
  Nat.eqb (List.length (files s)) 0 || isLoading s.


Definition msg_extract_failed : string := "PART No. 抽出に失敗しました。".

Section Part000_sort.

(** [String.prototype.localeCompare], whose order depends on the locale:
    a negative, zero or positive number. *)
Variable localeCompare : string -> string -> Z.

(** The comparator handed to [rows.sort]. *)
Definition compare_rows (a b : Row) : Z :=
  if negb (String.eqb (part_number a) (part_number b))
  then localeCompare (part_number a) (part_number b)
  else localeCompare (file_name a) (file_name b).

(** [Array.prototype.sort] is stable; for a consistent comparator its
    result is the stable sort, computed here by insertion: a row goes
    before the first row it compares below, so after the equal ones. *)
Fixpoint insert_row (x : Row) (l : list Row) : list Row :=
  match l with
  | [] => [x]
  | y :: l' => if Z.ltb (compare_rows x y) 0 then x :: y :: l' else y :: insert_row x l'
  end.

Definition sort_rows (rows : list Row) : list Row :=
  fold_left (fun acc x => insert_row x acc) rows [].

(** [handleSearch] of part_000 up to its [await]: it clears [results]
    before posting.  The [hasSearched] field, absent from this [App], is
    left untouched. *)
Definition handleSearch_part000_begin (s : AppState) : option (AppState * Request) :=
  if isSearchDisabled_part000 s then None
  else
    let s := setResults [] (setError "" (setIsLoading true s)) in
    Some (s, mkRequest "/api/extract_part_numbers_from_table" (toFilesFormData (files s)) false).

(** The rest of that [handleSearch], [finally] included. *)
Definition handleSearch_part000_finish (s : AppState) (o : Outcome (list Entry)) : AppState :=
  let s := match o with
           | Ok data => setResults (sort_rows (flatten data)) s
           | Err detail => setError (errmsg detail msg_extract_failed) s
           end in
  setIsLoading false s.

Definition handleSearch_part000 (s : AppState) (o : Outcome (list Entry))
    : AppState * option Request :=
  match handleSearch_part000_begin s with
  | None => (s, None)
  | Some (s1, req) => (handleSearch_part000_finish s1 o, Some req)
  end.

End Part000_sort.

(** A [localeCompare] for concrete runs: code-point order. *)
Definition codepoint_compare (a b : string) : Z :=
  match String.compare a b with Lt => -1 | Eq => 0 | Gt => 1 end.

(** Each row compares at most equal to the next one. *)
Fixpoint sorted_wrt (cmp : Row -> Row -> Z) (l : list Row) : bool :=
  match l with
  | x :: (y :: _) as rest => Z.leb (cmp x y) 0 && sorted_wrt cmp rest
  | _ => true
  end.

(** Number of manual searches in flight. *)
Definition manual_pending (r : Runtime.Runtime) : nat :=
  List.length (filter (Runtime.pending_eqb Runtime.PManual) (Runtime.pending r)).

(** Selections a file dialog can return: no two files with one signature. *)
Definition distinct_selection (ev : Runtime.Event) : Prop :=
  match ev with
  | Runtime.EvSelect selected => NoDup (map signature selected)
  | _ => True
  end.

(** ** Lemmas on the embedding *)

Lemma append_files_app (fd : FormData) (fs : list File) :
  append_files fd fs = (fd ++ map (fun f => ("files", FVFile f)) fs)%list.
Proof.
  revert fd; induction fs as [|f fs IH]; intros fd; simpl.
  - now rewrite app_nil_r.
  - rewrite IH. unfold append. now rewrite <- app_assoc.
Qed.

Lemma form_get_after_files (k : string) (fs : list File) (rest : FormData) :
  String.eqb k "files" = false ->
  form_get k (map (fun f => ("files", FVFile f)) fs ++ rest)%list = form_get k rest.
Proof.
  intros Hk; induction fs as [|f fs IH]; simpl; [reflexivity|].
  now rewrite Hk.
Qed.

Lemma flatten_app (d1 d2 : list Entry) :
  flatten (d1 ++ d2)%list = (flatten d1 ++ flatten d2)%list.
Proof. unfold flatten. now rewrite flat_map_app. Qed.

Lemma in_flatten_file (data : list Entry) (r : Row) :
  In r (flatten data) -> In (file_name r) (map entry_file_name data).
Proof.
  unfold flatten; rewrite in_flat_map.
  intros [e [He Hr]]; apply in_map_iff in Hr as [pn [<- _]].
  simpl; now apply in_map.
Qed.

Lemma nodup_rows_of_entry (e : Entry) :
  NoDup (part_numbers e) ->
  NoDup (map row_key (map (fun pn => mkRow (entry_file_name e) pn) (part_numbers e))).
Proof.
  rewrite map_map; unfold row_key; simpl.
  induction (part_numbers e) as [|p ps IH]; simpl; intros Hnd; [constructor|].
  inversion Hnd as [|? ? Hnin Hnd']; subst.
  constructor; [|now apply IH].
  rewrite in_map_iff; intros [q [Hq Hin]]; inversion Hq; subst; contradiction.
Qed.

Lemma flatten_nodup (data : list Entry) :
  NoDup (map entry_file_name data) ->
  Forall (fun e => NoDup (part_numbers e)) data ->
  NoDup (map row_key (flatten data)).
Proof.
  induction data as [|e data IH]; simpl; intros Hn Hp; [constructor|].
  inversion Hn as [|? ? Hnin Hn']; subst.
  inversion Hp as [|? ? Hpe Hp']; subst.
  rewrite map_app; apply NoDup_app.
  - now apply nodup_rows_of_entry.
  - now apply IH.
  - intros k Hk1 Hk2.
    apply in_map_iff in Hk1 as [r1 [Hr1 Hin1]].
    apply in_map_iff in Hin1 as [pn [<- _]].
    apply in_map_iff in Hk2 as [r2 [Hr2 Hin2]].
    unfold row_key in Hr1, Hr2; simpl in Hr1.
    rewrite <- Hr2 in Hr1; inversion Hr1 as [[Hpn Hfn]].
    apply Hnin; rewrite Hfn; now apply in_flatten_file.
Qed.

Lemma merge_loop_filter (existing : list string) (selected acc : list File) :
  fold_left (fun merged f =>
               if has_signature existing (signature f) then merged
               else (merged ++ [f])%list) selected acc
  = (acc ++ filter (fun f => negb (has_signature existing (signature f))) selected)%list.
Proof.
  revert acc; induction selected as [|f sel IH]; intros acc; simpl.
  - now rewrite app_nil_r.
  - rewrite IH. destruct (has_signature existing (signature f)); simpl; [reflexivity|].
    now rewrite <- app_assoc.
Qed.

Lemma has_signature_in (existing : list string) (sig : string) :
  In sig existing -> has_signature existing sig = true.
Proof.
  intros Hin; unfold has_signature; apply existsb_exists.
  exists sig; split; [exact Hin|apply String.eqb_refl].
Qed.

Lemma count_sig_app (a b : list File) (sig : string) :
  count_sig (a ++ b)%list sig = count_sig a sig + count_sig b sig.
Proof. unfold count_sig. now rewrite filter_app, length_app. Qed.

Lemma count_sig_filtered_out (existing : list string) (sel : list File) (sig : string) :
  has_signature existing sig = true ->
  count_sig (filter (fun f => negb (has_signature existing (signature f))) sel) sig = 0.
Proof.
  intros Hhas; unfold count_sig; induction sel as [|g sel IH]; simpl; [reflexivity|].
  destruct (String.eqb_spec (signature g) sig) as [<-|Hne].
  - rewrite Hhas; simpl; exact IH.
  - destruct (negb (has_signature existing (signature g))); simpl;
      [rewrite (proj2 (String.eqb_neq _ _) Hne)|]; exact IH.
Qed.

Lemma executeSearch_json_enabled (silent : bool) (s : AppState) (o : Outcome (list Entry)) :
  isSearchDisabled s = false ->
  executeSearch_json silent s o =
  (executeSearch_finish_json silent
     (setError "" (if negb silent then setIsLoading true s else s)) o,
   Some (mkRequest "/api/extract_part_numbers_from_table"
           (toPartsTableFormData (files s) (Some (lValue s)) (Some (wValue s))
              (Some (tValue s))) false)).
Proof.
  intros H; unfold executeSearch_json, executeSearch_begin; rewrite H; simpl.
  destruct silent; reflexivity.
Qed.

Lemma isSearchDisabled_false (s : AppState) :
  files s <> [] -> isSearchDisabled s = false.
Proof.
  unfold isSearchDisabled; destruct (files s); [contradiction|reflexivity].
Qed.

(** Normalise a request body to the file entries followed by the fields. *)
Ltac form_norm :=
  rewrite ?append_files_app; unfold append; simpl app; rewrite <- ?app_assoc;
  simpl app.

(** ** Claims *)

(** C1 (parts-list ordering).  The rows [executeSearch] of part_001 puts in
    [results] are the flattened response, entry after entry, without the
    [(part_number, file_name)] sort of the [handleSearch] of part_000: for
    the response [a.pdf: [Z-9]], [b.pdf: [A-1]] the displayed rows are
    [Z-9/a.pdf], [A-1/b.pdf], which are not ordered. *)
Lemma C1_rows_not_sorted :
  results (fst (executeSearch_json false state_ab
                  (Ok [mkEntry "a.pdf" ["Z-9"]; mkEntry "b.pdf" ["A-1"]])))
  = [mkRow "a.pdf" "Z-9"; mkRow "b.pdf" "A-1"]
  /\ rows_sorted (results (fst (executeSearch_json false state_ab
                  (Ok [mkEntry "a.pdf" ["Z-9"]; mkEntry "b.pdf" ["A-1"]])))) = false.
Proof. split; vm_compute; reflexivity. Qed.

(** C2 (parts-list uniqueness), counterexample.  An entry listing the same
    part number twice yields two equal [(part_number, file_name)] rows. *)
Lemma C2_duplicate_rows :
  ~ NoDup (map row_key (results (fst (executeSearch_json false state_ab
                  (Ok [mkEntry "a.pdf" ["A-1"; "A-1"]]))))).
Proof.
  vm_compute; intros H; inversion H as [|? ? Hnin _]; apply Hnin; left; reflexivity.
Qed.

(** C2, as amended.  The displayed rows carry no duplicate
    [(part_number, file_name)] pair whenever the response does not: its
    file names are distinct and each entry lists a part number once. *)
Theorem C2_rows_unique_if_response_unique (s : AppState) (data : list Entry)
    (Hfiles : files s <> [])
    (Hnames : NoDup (map entry_file_name data))
    (Hparts : Forall (fun e => NoDup (part_numbers e)) data) :
  results (fst (executeSearch_json false s (Ok data))) = flatten data
  /\ NoDup (map row_key (results (fst (executeSearch_json false s (Ok data))))).
Proof.
  rewrite executeSearch_json_enabled by now apply isSearchDisabled_false.
  simpl; split; [reflexivity|].
  now apply flatten_nodup.
Qed.

Lemma C2_rows_unique_if_response_unique_witness :
  results (fst (executeSearch_json false state_ab
     (Ok [mkEntry "a.pdf" ["A-1"; "B-2"]; mkEntry "b.pdf" ["A-1"]])))
  = flatten [mkEntry "a.pdf" ["A-1"; "B-2"]; mkEntry "b.pdf" ["A-1"]]
  /\ NoDup (map row_key (results (fst (executeSearch_json false state_ab
     (Ok [mkEntry "a.pdf" ["A-1"; "B-2"]; mkEntry "b.pdf" ["A-1"]]))))).
Proof.
  apply C2_rows_unique_if_response_unique.
  - discriminate.
  - repeat constructor; simpl; intuition discriminate.
  - repeat constructor; simpl; intuition discriminate.
Defined.


(** C4 (T optional).  When [tValue] is [undefined], [null] or empty, both
    [toFormData] variants still send [l_value] and [w_value] as given,
    [t_value] is empty (part_001, App.jsx) or left out (part_000), the
    criteria read from the body have no T axis, and a line with no T value
    is then judged on L and W alone. *)
Theorem C4_t_optional (fs : list File) (l w : string) (t : option string)
    (returnCsv : bool) (Ht : t = None \/ t = Some "") :
  form_get "l_value" (toFormData fs l w t returnCsv) = Some (FVStr l)
  /\ form_get "w_value" (toFormData fs l w t returnCsv) = Some (FVStr w)
  /\ (forall v, In ("t_value", v) (toFormData fs l w t returnCsv) -> v = FVStr "")
  /\ form_get "l_value" (toFormData_part000 fs l w t returnCsv) = Some (FVStr l)
  /\ form_get "w_value" (toFormData_part000 fs l w t returnCsv) = Some (FVStr w)
  /\ (forall v, ~ In ("t_value", v) (toFormData_part000 fs l w t returnCsv))
  /\ (forall parse tol crit,
        (Backend.criteria_of_form parse tol (toFormData fs l w t returnCsv) = Some crit
         \/ Backend.criteria_of_form parse tol (toFormData_part000 fs l w t returnCsv) = Some crit)
        -> Backend.crit_t crit = None)
  /\ (forall ctx crit, Backend.crit_t crit = None -> Backend.ctx_t ctx = [] ->
        Backend.matches ctx crit
        = Backend.axis_ok (Backend.tolerance crit) (Backend.crit_l crit) (Backend.ctx_l ctx)
          && Backend.axis_ok (Backend.tolerance crit) (Backend.crit_w crit) (Backend.ctx_w ctx)).
Proof.
  assert (Hfiles : forall v rest, In ("t_value", v) (map (fun f => ("files", FVFile f)) fs ++ rest)%list
                                  -> In ("t_value", v) rest).
  { intros v rest Hin; apply in_app_or in Hin as [Hin|Hin]; [|exact Hin].
    apply in_map_iff in Hin as [f [Hf _]]; discriminate. }
  assert (Ht' : nullish t "" = "") by (destruct Ht; subst; reflexivity).
  unfold toFormData, toFormData_part000.
  destruct Ht as [-> | ->]; simpl nullish; form_norm;
  rewrite ?form_get_after_files by reflexivity;
  (split; [reflexivity|]); (split; [reflexivity|]);
  (split; [intros v Hin; apply Hfiles in Hin; simpl in Hin;
           intuition congruence|]);
  (split; [reflexivity|]); (split; [reflexivity|]);
  (split; [intros v Hin; apply Hfiles in Hin; simpl in Hin; intuition congruence|]);
  (split; [|intros ctx [cl cw ct tol] Hct Hctx; simpl in Hct; subst ct;
            unfold Backend.matches;
            cbn [Backend.crit_t Backend.crit_l Backend.crit_w Backend.tolerance Backend.axis_ok];
            apply andb_true_r]);
  intros parse tol crit Hc; unfold Backend.criteria_of_form in Hc;
  rewrite ?form_get_after_files in Hc by reflexivity; simpl in Hc;
  destruct Hc as [Hc|Hc];
  repeat match type of Hc with
         | context [match ?x with _ => _ end] => destruct x; try discriminate
         end;
  inversion Hc; reflexivity.
Qed.

Lemma C4_t_optional_witness :
  let fd := toFormData [file_a] "20" "4" None false in
  let fd' := toFormData_part000 [file_a] "20" "4" None false in
  (@None string = None \/ @None string = Some "")
  /\ (form_get "l_value" fd = Some (FVStr "20")
  /\ form_get "w_value" fd = Some (FVStr "4")
  /\ (forall v, In ("t_value", v) fd -> v = FVStr "")
  /\ form_get "l_value" fd' = Some (FVStr "20")
  /\ form_get "w_value" fd' = Some (FVStr "4")
  /\ (forall v, ~ In ("t_value", v) fd')
  /\ (forall parse tol crit,
        (Backend.criteria_of_form parse tol fd = Some crit
         \/ Backend.criteria_of_form parse tol fd' = Some crit)
        -> Backend.crit_t crit = None)
  /\ (forall ctx crit, Backend.crit_t crit = None -> Backend.ctx_t ctx = [] ->
        Backend.matches ctx crit
        = Backend.axis_ok (Backend.tolerance crit) (Backend.crit_l crit) (Backend.ctx_l ctx)
          && Backend.axis_ok (Backend.tolerance crit) (Backend.crit_w crit) (Backend.ctx_w ctx))).
Proof.
  intros fd fd'; split; [left; reflexivity|].
  apply C4_t_optional; left; reflexivity.
Defined.

(** C5 (CSV file names).  On success each CSV request hands the browser
    one [text/csv] blob holding the response bytes, named after the
    request alone: [search_results.csv] for the CSV search on
    [/api/search], [parts_list.csv] for [/api/extract_parts_list_csv] and
    [pdf_lines.csv] for [/api/extract_lines_csv]; a failed request
    downloads nothing. *)
Theorem C5_csv_file_names (s : AppState) (blob : string) :
  (match executeSearch_csv s (Ok blob) with
   | (_, Some r, dls) => req_url r = "/api/search" /\ req_blob r = true
                         /\ dls = [mkDownload "text/csv" "search_results.csv" blob]
   | (_, None, dls) => dls = []
   end)
  /\ (match handleDownloadPartsListCsv s (Ok blob) with
      | (_, Some r, dls) => req_url r = "/api/extract_parts_list_csv" /\ req_blob r = true
                            /\ dls = [mkDownload "text/csv" "parts_list.csv" blob]
      | (_, None, dls) => dls = []
      end)
  /\ (match handleDownloadLinesCsv s (Ok blob) with
      | (_, Some r, dls) => req_url r = "/api/extract_lines_csv" /\ req_blob r = true
                            /\ dls = [mkDownload "text/csv" "pdf_lines.csv" blob]
      | (_, None, dls) => dls = []
      end)
  /\ (forall d, snd (executeSearch_csv s (Err d)) = []
                /\ snd (handleDownloadPartsListCsv s (Err d)) = []
                /\ snd (handleDownloadLinesCsv s (Err d)) = []).
Proof.
  unfold executeSearch_csv, executeSearch_begin, handleDownloadPartsListCsv,
    handleDownloadLinesCsv, isLinesCsvDisabled.
  unfold isSearchDisabled.
  destruct (Nat.eqb (List.length (files s)) 0); simpl; repeat split; reflexivity.
Qed.




(** C7 (per-file isolation), against the back end modelled from the spec.
    The batch response is the merge of the files' own contributions; a
    file whose processing fails with [CorruptDocument] or [ZeroPages]
    contributes no candidate and one annotation naming it, and the
    candidates of the batch are those of the batch without that file. *)
Theorem C7_per_file_isolation
    (process_file : Backend.SourceDocument -> list Backend.Candidate + Backend.FileError)
    (pre post : list Backend.SourceDocument) (d : Backend.SourceDocument)
    (e : Backend.FileError) (Hfail : process_file d = inr e) :
  Backend.resp_candidates (Backend.aggregate process_file (pre ++ d :: post))
  = Backend.resp_candidates (Backend.aggregate process_file (pre ++ post))
  /\ Backend.resp_errors (Backend.aggregate process_file (pre ++ d :: post))
     = (Backend.resp_errors (Backend.aggregate process_file pre)
        ++ (Backend.doc_name d, e) :: Backend.resp_errors (Backend.aggregate process_file post))%list
  /\ (forall docs,
        Backend.resp_candidates (Backend.aggregate process_file docs)
        = flat_map (fun x => Backend.resp_candidates (Backend.file_contribution process_file x)) docs).
Proof.
  assert (Hcand : forall docs,
             Backend.resp_candidates (Backend.aggregate process_file docs)
             = flat_map (fun x => Backend.resp_candidates (Backend.file_contribution process_file x))
                 docs).
  { induction docs as [|x docs IH]; simpl; [reflexivity|]. now rewrite IH. }
  assert (Herr : forall docs,
             Backend.resp_errors (Backend.aggregate process_file docs)
             = flat_map (fun x => Backend.resp_errors (Backend.file_contribution process_file x))
                 docs).
  { induction docs as [|x docs IH]; simpl; [reflexivity|]. now rewrite IH. }
  assert (Hd : Backend.file_contribution process_file d
               = Backend.mkResponse [] [(Backend.doc_name d, e)]).
  { unfold Backend.file_contribution; now rewrite Hfail. }
  split; [|split; [|exact Hcand]].
  - rewrite !Hcand, !flat_map_app; cbn [flat_map]; now rewrite Hd.
  - rewrite !Herr, flat_map_app; cbn [flat_map]; now rewrite Hd.
Qed.

(** A per-file pipeline for concrete runs: a file with no byte is corrupt,
    any other yields one candidate. *)
Definition sample_process (d : Backend.SourceDocument)
    : list Backend.Candidate + Backend.FileError :=
  match Backend.doc_bytes d with
  | [] => inr Backend.CorruptDocument
  | _ => inl [Backend.mkCandidate "ABC-123" (Backend.doc_name d) "PART NO: ABC-123" 0]
  end.

Lemma C7_per_file_isolation_witness :
  sample_process (Backend.mkDoc "bad.pdf" []) = inr Backend.CorruptDocument
  /\ (Backend.resp_candidates (Backend.aggregate sample_process
        ([Backend.mkDoc "a.pdf" [Byte.x25]] ++ Backend.mkDoc "bad.pdf" [] :: [Backend.mkDoc "b.pdf" [Byte.x25]]))
  = Backend.resp_candidates (Backend.aggregate sample_process
        ([Backend.mkDoc "a.pdf" [Byte.x25]] ++ [Backend.mkDoc "b.pdf" [Byte.x25]]))
  /\ Backend.resp_errors (Backend.aggregate sample_process
        ([Backend.mkDoc "a.pdf" [Byte.x25]] ++ Backend.mkDoc "bad.pdf" [] :: [Backend.mkDoc "b.pdf" [Byte.x25]]))
     = (Backend.resp_errors (Backend.aggregate sample_process [Backend.mkDoc "a.pdf" [Byte.x25]])
        ++ (Backend.doc_name (Backend.mkDoc "bad.pdf" []), Backend.CorruptDocument)
           :: Backend.resp_errors (Backend.aggregate sample_process [Backend.mkDoc "b.pdf" [Byte.x25]]))%list
  /\ (forall docs,
        Backend.resp_candidates (Backend.aggregate sample_process docs)
        = flat_map (fun x => Backend.resp_candidates (Backend.file_contribution sample_process x)) docs)).
Proof.
  split; [reflexivity|].
  apply C7_per_file_isolation; reflexivity.
Defined.

(** C8 (file selection).  [handleFileChange] keeps the previous files in
    place and in order and appends, in selection order, exactly the
    selected files whose signature [name-size-lastModified] is not among the
    previous ones (the loop of part_000 computes the same list); so a
    selected file whose signature is already listed leaves the number of
    files with that signature unchanged. *)
Theorem C8_file_selection_appends_new_signatures (selectedFiles : list File) (s : AppState) :
  files (handleFileChange selectedFiles s)
  = (files s ++ filter (fun f => negb (has_signature (map signature (files s)) (signature f)))
                       selectedFiles)%list
  /\ handleFileChange_part000 selectedFiles (files s) = files (handleFileChange selectedFiles s)
  /\ (forall f, In f selectedFiles -> In (signature f) (map signature (files s)) ->
        count_sig (files (handleFileChange selectedFiles s)) (signature f)
        = count_sig (files s) (signature f)).
Proof.
  assert (Hfiles : files (handleFileChange selectedFiles s)
                   = (files s ++ filter (fun f => negb (has_signature (map signature (files s))
                                                         (signature f))) selectedFiles)%list).
  { destruct selectedFiles as [|f sel]; simpl; [now rewrite app_nil_r|reflexivity]. }
  split; [exact Hfiles|split].
  - rewrite Hfiles; unfold handleFileChange_part000.
    destruct selectedFiles as [|f sel]; [simpl; now rewrite app_nil_r|].
    cbv beta iota zeta; now rewrite merge_loop_filter.
  - intros f _ Hin; rewrite Hfiles, count_sig_app.
    rewrite count_sig_filtered_out by now apply has_signature_in.
    now rewrite Nat.add_0_r.
Qed.

(** C9 (results left alone on failure).  A failed [executeSearch] leaves
    [results] as it was, whatever the state its continuation runs in; the
    CSV branch never touches [results]; a successful JSON search replaces
    [results] by the rows of the response. *)
Theorem C9_results_replaced_only_on_success (silent : bool) (s : AppState) :
  (forall d, results (fst (executeSearch_json silent s (Err d))) = results s)
  /\ (forall st d, results (executeSearch_finish_json silent st (Err d)) = results st)
  /\ (forall o, results (fst (fst (executeSearch_csv s o))) = results s)
  /\ (forall data, results (fst (executeSearch_json silent s (Ok data)))
                   = if isSearchDisabled s then results s else flatten data).
Proof.
  split; [|split; [|split]].
  - intros d; unfold executeSearch_json, executeSearch_begin.
    destruct (isSearchDisabled s), silent; reflexivity.
  - intros st d; destruct silent; reflexivity.
  - intros o; unfold executeSearch_csv, executeSearch_begin.
    destruct (isSearchDisabled s), o; reflexivity.
  - intros data; unfold executeSearch_json, executeSearch_begin.
    destruct (isSearchDisabled s), silent; reflexivity.
Qed.

(** The run of C10: select [a.pdf], click search, select [b.pdf] while the
    search is in flight, then the search response arrives. *)
Definition c10_trace : list Runtime.Event :=
  [Runtime.EvSelect [file_a]; Runtime.EvClickSearch; Runtime.EvSelect [file_b];
   Runtime.EvRespond (Ok [])].

(** C10 (no background search after a file change), refuted on part_001.
    [handleSearch] runs [setHasSearched(true)] after its [await] whatever
    happened meanwhile, so a selection made while the manual search is in
    flight is overridden: when that search settles the effect posts a
    silent search for [a.pdf] and [b.pdf] although no search was clicked
    after [b.pdf] was added. *)
Lemma C10_silent_search_after_file_change :
  Runtime.sent (Runtime.run c10_trace)
  = [(1, Runtime.PManual, [file_a]); (3, Runtime.PSilent, [file_a; file_b])]
  /\ ~ no_silent_search_after_change c10_trace.
Proof.
  split; [vm_compute; reflexivity|].
  intros H.
  assert (Hno : forall i ev', 2 < i <= 3 -> nth_error c10_trace i = Some ev' ->
                              Runtime.is_click_search ev' = false).
  { intros i ev' Hi Hn.
    assert (i = 3) as -> by lia.
    simpl in Hn; inversion Hn; reflexivity. }
  specialize (H 2 3 (Runtime.EvSelect [file_b]) ltac:(lia) eq_refl eq_refl Hno).
  vm_compute in H; discriminate.
Qed.

(** When the selection comes after the manual search has settled, the
    reset of [hasSearched] holds and no silent search follows it. *)
Example c10_sequential_selection :
  Runtime.sent (Runtime.run [Runtime.EvSelect [file_a]; Runtime.EvClickSearch;
                             Runtime.EvRespond (Ok []); Runtime.EvSelect [file_b];
                             Runtime.EvSetL "25"])
  = [(1, Runtime.PManual, [file_a]); (2, Runtime.PSilent, [file_a])].
Proof. vm_compute; reflexivity. Qed.

(** ** Further properties of the code *)

Module StringFacts.

Lemma list_ascii_of_string_app (a b : string) :
  list_ascii_of_string (a ++ b) = (list_ascii_of_string a ++ list_ascii_of_string b)%list.
Proof. induction a as [|c a IH]; simpl; [reflexivity|now rewrite IH]. Qed.

Lemma string_app_assoc (a b c : string) : (a ++ b) ++ c = a ++ (b ++ c).
Proof. induction a as [|x a IH]; simpl; [reflexivity|now rewrite IH]. Qed.

Lemma list_ascii_of_string_inj (a b : string) :
  list_ascii_of_string a = list_ascii_of_string b -> a = b.
Proof.
  intros H; rewrite <- (string_of_list_ascii_of_string a), <- (string_of_list_ascii_of_string b).
  now rewrite H.
Qed.

(** Cutting two strings at the last occurrence of a separator [c]. *)
Lemma split_at_last (c : ascii) (n1 n2 d1 d2 : list ascii) :
  ~ In c d1 -> ~ In c d2 -> (n1 ++ c :: d1 = n2 ++ c :: d2)%list -> n1 = n2 /\ d1 = d2.
Proof.
  revert n2; induction n1 as [|a n1 IH]; intros n2 H1 H2 Heq; destruct n2 as [|b n2];
    simpl in Heq; inversion Heq; subst.
  - split; reflexivity.
  - exfalso; apply H1; apply in_or_app; right; left; reflexivity.
  - exfalso; apply H2; apply in_or_app; right; left; reflexivity.
  - destruct (IH n2 H1 H2 H3) as [-> ->]; split; reflexivity.
Qed.

Lemma uint_chars_no_dash (d : Decimal.uint) :
  ~ In "-"%char (list_ascii_of_string (NilEmpty.string_of_uint d)).
Proof.
  induction d; simpl; [tauto| | | | | | | | | |];
    intros [H|H]; (discriminate || exact (IHd H)).
Qed.

(** The decimal rendering of a number is non-empty and holds no dash. *)
Lemma digits_shape (d : Decimal.uint) :
  list_ascii_of_string (NilZero.string_of_uint d) <> []
  /\ ~ In "-"%char (list_ascii_of_string (NilZero.string_of_uint d)).
Proof.
  destruct d; simpl; (split; [discriminate|]);
    try (intros [H|H]; [discriminate|exact (uint_chars_no_dash _ H)]).
  intros [H|H]; [discriminate|exact H].
Qed.

Lemma js_string_of_N_inj (a b : N) : js_string_of_N a = js_string_of_N b -> a = b.
Proof.
  assert (Hp : forall n, exists d, NilZero.uint_of_string (js_string_of_N n) = Some d
                                   /\ N.of_uint d = n).
  { intros n; unfold js_string_of_N.
    destruct (N.to_uint n) eqn:Hn;
      [exists Decimal.zero; split; [reflexivity|]
      | exists (N.to_uint n); rewrite Hn; split;
        [apply NilZero.usu; discriminate|]..];
      rewrite <- Hn; apply DecimalN.Unsigned.of_to || (rewrite <- (DecimalN.Unsigned.of_to n), Hn; reflexivity). }
  intros H; destruct (Hp a) as [da [Ha Ea]], (Hp b) as [db [Hb Eb]].
  rewrite H, Hb in Ha; inversion Ha; subst; reflexivity.
Qed.

Lemma js_string_of_nat_inj (a b : nat) : js_string_of_nat a = js_string_of_nat b -> a = b.
Proof.
  assert (Hp : forall n, exists d, NilZero.uint_of_string (js_string_of_nat n) = Some d
                                   /\ Nat.of_uint d = n).
  { intros n; unfold js_string_of_nat.
    destruct (Nat.to_uint n) eqn:Hn;
      [exists Decimal.zero; split; [reflexivity|]
      | exists (Nat.to_uint n); rewrite Hn; split;
        [apply NilZero.usu; discriminate|]..];
      rewrite <- Hn; apply DecimalNat.Unsigned.of_to || (rewrite <- (DecimalNat.Unsigned.of_to n), Hn; reflexivity). }
  intros H; destruct (Hp a) as [da [Ha Ea]], (Hp b) as [db [Hb Eb]].
  rewrite H, Hb in Ha; inversion Ha; subst; reflexivity.
Qed.

Lemma js_string_of_Z_inj (a b : Z) : js_string_of_Z a = js_string_of_Z b -> a = b.
Proof.
  assert (Hp : forall d, exists d', NilZero.int_of_string (NilZero.string_of_int d) = Some d'
                                    /\ Z.of_int d' = Z.of_int d).
  { intros [u|u]; destruct u;
      first [ eexists; split; [reflexivity|reflexivity]
            | eexists; split; [apply NilZero.isi; discriminate|reflexivity] ]. }
  intros H; unfold js_string_of_Z in H.
  destruct (Hp (Z.to_int a)) as [da [Ha Ea]], (Hp (Z.to_int b)) as [db [Hb Eb]].
  rewrite H, Hb in Ha; inversion Ha; subst.
  rewrite DecimalZ.of_to in Ea, Eb; congruence.
Qed.

(** The rendering of a [lastModified]: digits, possibly after a minus sign. *)
Lemma js_string_of_Z_shape (z : Z) :
  exists D, D <> [] /\ ~ In "-"%char D
            /\ (list_ascii_of_string (js_string_of_Z z) = D
                \/ list_ascii_of_string (js_string_of_Z z) = "-"%char :: D).
Proof.
  unfold js_string_of_Z, NilZero.string_of_int.
  destruct (Z.to_int z) as [u|u]; exists (list_ascii_of_string (NilZero.string_of_uint u));
    destruct (digits_shape u) as [H1 H2]; (split; [exact H1|split; [exact H2|]]);
    [left|right]; reflexivity.
Qed.

Lemma last_not_dash (n : list ascii) (S : list ascii) (x : list ascii) :
  S <> [] -> ~ In "-"%char S -> (x ++ ["-"%char] <> n ++ "-"%char :: S)%list.
Proof.
  intros Hne Hnd Heq.
  destruct (exists_last Hne) as [S' [a ->]].
  assert (Heq' : (x ++ ["-"%char] = (n ++ "-"%char :: S') ++ [a])%list)
    by (rewrite <- app_assoc; exact Heq).
  apply app_inj_tail in Heq' as [_ Ha].
  apply Hnd; rewrite <- Ha; apply in_or_app; right; left; reflexivity.
Qed.

(** Reading [name-size-lastModified] back from the right. *)
Lemma parse_signature_chars (n1 n2 S1 S2 Z1 Z2 D1 D2 : list ascii) :
  S1 <> [] -> ~ In "-"%char S1 -> S2 <> [] -> ~ In "-"%char S2 ->
  ~ In "-"%char D1 -> ~ In "-"%char D2 ->
  (Z1 = D1 \/ Z1 = "-"%char :: D1) -> (Z2 = D2 \/ Z2 = "-"%char :: D2) ->
  (n1 ++ "-"%char :: S1 ++ "-"%char :: Z1 = n2 ++ "-"%char :: S2 ++ "-"%char :: Z2)%list ->
  n1 = n2 /\ S1 = S2 /\ Z1 = Z2.
Proof.
  intros HS1 HS1d HS2 HS2d HD1 HD2 HZ1 HZ2 H.
  assert (Hfront : forall m1 m2, (m1 ++ "-"%char :: S1 = m2 ++ "-"%char :: S2)%list ->
                                 m1 = m2 /\ S1 = S2)
    by (intros m1 m2; apply split_at_last; assumption).
  destruct HZ1 as [-> | ->], HZ2 as [-> | ->].
  - assert (H' : ((n1 ++ "-"%char :: S1) ++ "-"%char :: D1
                  = (n2 ++ "-"%char :: S2) ++ "-"%char :: D2)%list)
      by (rewrite <- !app_assoc; exact H).
    apply split_at_last in H' as [Hp ->]; try assumption.
    apply Hfront in Hp as [-> ->]; repeat split.
  - exfalso.
    assert (H' : ((n1 ++ "-"%char :: S1) ++ "-"%char :: D1
                  = ((n2 ++ "-"%char :: S2) ++ ["-"%char]) ++ "-"%char :: D2)%list)
      by (rewrite <- !app_assoc; exact H).
    apply split_at_last in H' as [Hp _]; try assumption.
    exact (last_not_dash _ _ _ HS1 HS1d (eq_sym Hp)).
  - exfalso.
    assert (H' : (((n1 ++ "-"%char :: S1) ++ ["-"%char]) ++ "-"%char :: D1
                  = (n2 ++ "-"%char :: S2) ++ "-"%char :: D2)%list)
      by (rewrite <- !app_assoc; exact H).
    apply split_at_last in H' as [Hp _]; try assumption.
    exact (last_not_dash _ _ _ HS2 HS2d Hp).
  - assert (H' : (((n1 ++ "-"%char :: S1) ++ ["-"%char]) ++ "-"%char :: D1
                  = ((n2 ++ "-"%char :: S2) ++ ["-"%char]) ++ "-"%char :: D2)%list)
      by (rewrite <- !app_assoc; exact H).
    apply split_at_last in H' as [Hp ->]; try assumption.
    apply app_inj_tail in Hp as [Hp _].
    apply Hfront in Hp as [-> ->]; repeat split.
Qed.

End StringFacts.

(** X1.  The duplicate check of [handleFileChange] keys files by
    [`${name}-${size}-${lastModified}`]; this key identifies the triple:
    two files with the same key agree on name, size and lastModified, even
    when names contain dashes or [lastModified] is negative. *)
Theorem signature_injective (f1 f2 : File) : signature f1 = signature f2 -> f1 = f2.
Proof.
  intros H; destruct f1 as [n1 s1 z1], f2 as [n2 s2 z2]; unfold signature in H; simpl in H.
  apply (f_equal list_ascii_of_string) in H.
  repeat (rewrite StringFacts.list_ascii_of_string_app in H; cbn [list_ascii_of_string app] in H).
  destruct (StringFacts.digits_shape (N.to_uint s1)) as [Hs1 Hs1d].
  destruct (StringFacts.digits_shape (N.to_uint s2)) as [Hs2 Hs2d].
  destruct (StringFacts.js_string_of_Z_shape z1) as [D1 [_ [HD1 HZ1]]].
  destruct (StringFacts.js_string_of_Z_shape z2) as [D2 [_ [HD2 HZ2]]].
  unfold js_string_of_N in H.
  destruct (StringFacts.parse_signature_chars _ _ _ _ _ _ _ _ Hs1 Hs1d Hs2 Hs2d HD1 HD2 HZ1 HZ2 H)
    as [Hn [Hs Hz]].
  apply StringFacts.list_ascii_of_string_inj in Hn, Hs, Hz.
  apply StringFacts.js_string_of_N_inj in Hs.
  apply StringFacts.js_string_of_Z_inj in Hz.
  now subst.
Qed.

Lemma signature_injective_witness :
  signature (mkFile "x-1-2.pdf" 3 (-4)) = signature (mkFile "x-1-2.pdf" 3 (-4))
  /\ mkFile "x-1-2.pdf" 3 (-4) = mkFile "x-1-2.pdf" 3 (-4).
Proof.
  split; [reflexivity|].
  apply signature_injective; reflexivity.
Defined.

Lemma mapi_from_in {A B : Type} (f : A -> nat -> B) (i : nat) (l : list A) (y : B) :
  In y (mapi_from f i l) -> exists x j, i <= j /\ y = f x j.
Proof.
  revert i; induction l as [|x l IH]; intros i Hin; simpl in Hin; [contradiction|].
  destruct Hin as [<-|Hin].
  - exists x, i; split; [lia|reflexivity].
  - destruct (IH (S i) Hin) as [x' [j [Hj ->]]]; exists x', j; split; [lia|reflexivity].
Qed.

Lemma mapi_from_nodup {A B : Type} (f : A -> nat -> B) (i : nat) (l : list A) :
  (forall x y j k, f x j = f y k -> j = k) -> NoDup (mapi_from f i l).
Proof.
  intros Hf; revert i; induction l as [|x l IH]; intros i; simpl; constructor.
  - intros Hin; apply mapi_from_in in Hin as [x' [j [Hj Heq]]].
    apply Hf in Heq; lia.
  - apply IH.
Qed.

(** Two keys ending in [-index] with digits only after the dash have the
    same index. *)
Lemma index_suffix_inj (p1 p2 : string) (j k : nat) :
  p1 ++ "-" ++ js_string_of_nat j = p2 ++ "-" ++ js_string_of_nat k -> j = k.
Proof.
  intros H; apply (f_equal list_ascii_of_string) in H.
  repeat (rewrite StringFacts.list_ascii_of_string_app in H; cbn [list_ascii_of_string app] in H).
  destruct (StringFacts.digits_shape (Nat.to_uint j)) as [_ Hj].
  destruct (StringFacts.digits_shape (Nat.to_uint k)) as [_ Hk].
  apply StringFacts.split_at_last in H as [_ Hd]; try assumption.
  apply StringFacts.list_ascii_of_string_inj in Hd.
  now apply StringFacts.js_string_of_nat_inj.
Qed.

(** X2.  The React keys part_001 gives to the rows of the results table
    ([`${row.file_name}-${index}`]) and to the file chips
    ([`${file.name}-${file.lastModified}-${index}`]) are pairwise distinct,
    whatever the file names, so no two rows or chips share a key. *)
Theorem render_keys_distinct (rs : list Row) (fs : list File) :
  NoDup (row_keys rs) /\ NoDup (chip_keys fs).
Proof.
  split; apply mapi_from_nodup.
  - intros x y j k H; exact (index_suffix_inj _ _ _ _ H).
  - intros x y j k H.
    apply (index_suffix_inj (name x ++ "-" ++ js_string_of_Z (lastModified x))
                            (name y ++ "-" ++ js_string_of_Z (lastModified y))).
    rewrite !StringFacts.string_app_assoc; exact H.
Qed.

(** *** Removing and clearing files *)

Lemma filteri_keep_all {A : Type} (m j : nat) (l : list A) :
  m < j -> filteri_from (fun _ index => negb (Nat.eqb index m)) j l = l.
Proof.
  revert j; induction l as [|x l IH]; intros j Hj; simpl; [reflexivity|].
  destruct (Nat.eqb_spec j m) as [->|_]; [lia|].
  simpl; f_equal; apply IH; lia.
Qed.

Lemma remove_index_filteri {A : Type} (i j : nat) (l : list A) :
  remove_index i l = filteri_from (fun _ index => negb (Nat.eqb index (j + i))) j l.
Proof.
  revert i j; induction l as [|x l IH]; intros i j; [destruct i; reflexivity|].
  destruct i as [|i]; simpl.
  - rewrite Nat.add_0_r, Nat.eqb_refl; simpl.
    symmetry; apply filteri_keep_all; lia.
  - destruct (Nat.eqb_spec j (j + S i)) as [E|_]; [lia|]; simpl.
    f_equal; replace (j + S i) with (S j + i) by lia; apply IH.
Qed.

Lemma remove_index_firstn_skipn {A : Type} (i : nat) (l : list A) :
  remove_index i l = (firstn i l ++ skipn (S i) l)%list.
Proof.
  revert i; induction l as [|x l IH]; intros [|i]; simpl; try reflexivity.
  now rewrite IH.
Qed.

Lemma remove_index_length {A : Type} (i : nat) (l : list A) :
  List.length (remove_index i l) = List.length l - (if Nat.ltb i (List.length l) then 1 else 0).
Proof.
  revert i; induction l as [|x l IH]; intros [|i]; cbn [remove_index List.length];
    try reflexivity.
  - destruct (Nat.ltb_spec 0 (S (List.length l))); lia.
  - rewrite IH; destruct (Nat.ltb_spec (S i) (S (List.length l))),
      (Nat.ltb_spec i (List.length l)); lia.
Qed.

(** X3.  [handleRemoveFile(i)] keeps the files whose index differs from
    [i] ([prev.filter((_, index) => index !== i)]): the files before and
    after position [i], in order; one file fewer when [i] is a position of
    the list, the same list otherwise.  It always resets [hasSearched]. *)
Theorem handleRemoveFile_drops_index (i : nat) (s : AppState) :
  files (handleRemoveFile i s)
    = filteri_from (fun _ index => negb (Nat.eqb index i)) 0 (files s)
  /\ files (handleRemoveFile i s) = (firstn i (files s) ++ skipn (S i) (files s))%list
  /\ List.length (files (handleRemoveFile i s))
       = List.length (files s) - (if Nat.ltb i (List.length (files s)) then 1 else 0)
  /\ hasSearched (handleRemoveFile i s) = false.
Proof.
  unfold handleRemoveFile; cbn [files hasSearched setHasSearched setFiles].
  split; [exact (remove_index_filteri i 0 (files s))|].
  split; [apply remove_index_firstn_skipn|].
  split; [apply remove_index_length|reflexivity].
Qed.

(** X4.  [handleClear] empties the files, the table and the error and
    resets [hasSearched]; it keeps L, W, T and [isLoading] (an in-flight
    search is not cancelled).  After it no search, CSV search, parts-list
    CSV or lines CSV request is posted. *)
Theorem handleClear_disables_requests (s : AppState) (returnCsv silent : bool)
    (oc : Outcome string) :
  let s' := handleClear s in
  files s' = [] /\ results s' = [] /\ error s' = "" /\ hasSearched s' = false
  /\ lValue s' = lValue s /\ wValue s' = wValue s /\ tValue s' = tValue s
  /\ isLoading s' = isLoading s
  /\ executeSearch_begin returnCsv silent s' = None
  /\ handleDownloadPartsListCsv s' oc = (s', None, [])
  /\ handleDownloadLinesCsv s' oc = (s', None, []).
Proof.
  repeat split; reflexivity.
Qed.

(** *** Request bodies *)

Lemma form_files_app (a b : FormData) :
  form_files (a ++ b)%list = (form_files a ++ form_files b)%list.
Proof. unfold form_files; apply flat_map_app. Qed.

Lemma form_files_entries (fs : list File) :
  form_files (map (fun f => ("files", FVFile f)) fs) = fs.
Proof. induction fs as [|f fs IH]; simpl; [reflexivity|]; now rewrite IH. Qed.

Ltac files_norm :=
  rewrite ?append_files_app; unfold append; rewrite ?form_files_app, form_files_entries;
  cbn; rewrite ?app_nil_r.

(** X5.  Every request body the builders make carries the given files as
    its [files] entries, in the given order; the bodies of
    [toLinesCsvFormData] (part_001) and [toFilesFormData] (part_000) hold
    nothing else. *)
Theorem request_bodies_carry_files (fs : list File) (l w : string) (t : option string)
    (returnCsv : bool) (ol ow ot : option string) :
  form_files (toFormData fs l w t returnCsv) = fs
  /\ form_files (toFormData_part000 fs l w t returnCsv) = fs
  /\ form_files (toPartsTableFormData fs ol ow ot) = fs
  /\ toLinesCsvFormData fs = map (fun f => ("files", FVFile f)) fs
  /\ toFilesFormData fs = map (fun f => ("files", FVFile f)) fs.
Proof.
  split; [unfold toFormData; files_norm; reflexivity|].
  split; [unfold toFormData_part000; destruct t as [t|];
          [destruct (Nat.ltb 0 (String.length t))|]; files_norm; reflexivity|].
  split; [unfold toPartsTableFormData; files_norm; reflexivity|].
  split; [unfold toLinesCsvFormData|unfold toFilesFormData];
    rewrite append_files_app; reflexivity.
Qed.

(** X6.  Every request a handler posts carries exactly the selected files,
    in order; the handlers of part_001 post nothing only when no file is
    selected, [handleSearch] of part_000 also while it is loading. *)
Theorem posted_requests_carry_files (s : AppState) (returnCsv silent : bool)
    (oc : Outcome string) (localeCompare : string -> string -> Z) :
  match executeSearch_begin returnCsv silent s with
  | Some (_, req) => form_files (req_form req) = files s
  | None => files s = []
  end
  /\ match snd (fst (handleDownloadPartsListCsv s oc)) with
     | Some req => form_files (req_form req) = files s
     | None => files s = []
     end
  /\ match snd (fst (handleDownloadLinesCsv s oc)) with
     | Some req => form_files (req_form req) = files s
     | None => files s = []
     end
  /\ match handleSearch_part000_begin s with
     | Some (_, req) => form_files (req_form req) = files s
     | None => files s = [] \/ isLoading s = true
     end.
Proof.
  destruct (request_bodies_carry_files (files s) (lValue s) (wValue s) (Some (tValue s))
              true (Some (lValue s)) (Some (wValue s)) (Some (tValue s)))
    as [Hf [_ [Hp [Hl Hff]]]].
  unfold executeSearch_begin, handleDownloadPartsListCsv, handleDownloadLinesCsv,
    isLinesCsvDisabled, handleSearch_part000_begin, isSearchDisabled_part000, isSearchDisabled.
  destruct (files s) as [|f fs] eqn:E.
  - repeat split; simpl; auto.
  - cbn [List.length Nat.eqb orb].
    split; [destruct returnCsv, silent; cbn -[toFormData toPartsTableFormData form_files];
            rewrite ?E; first [exact Hf|exact Hp]|].
    split; [destruct oc; cbn -[toPartsTableFormData form_files]; rewrite ?E; exact Hp|].
    split; [destruct oc; cbn -[toLinesCsvFormData form_files]; rewrite ?E, Hl;
            apply form_files_entries|].
    destruct (isLoading s); [now right|]; cbn -[toFilesFormData form_files].
    rewrite ?E, Hff; apply form_files_entries.
Qed.

(** *** The CSV handlers *)

(** X7.  The three CSV downloads of part_001 ([executeSearch] with
    [returnCsv], [handleDownloadPartsListCsv], [handleDownloadLinesCsv])
    change no state but [error]: never the files, the table, L/W/T,
    [isLoading] or [hasSearched].  With no file they do nothing; otherwise a
    success clears the error and downloads one file, a failure downloads
    nothing and shows a non-empty message. *)
Theorem csv_handlers_touch_only_error (s : AppState) (o : Outcome string) :
  (let '(s', req, dls) := executeSearch_csv s o in
   s' = setError (error s') s
   /\ if isSearchDisabled s then s' = s /\ req = None /\ dls = []
      else match o with
           | Ok _ => error s' = "" /\ List.length dls = 1
           | Err _ => error s' <> "" /\ dls = []
           end)
  /\ (let '(s', req, dls) := handleDownloadPartsListCsv s o in
      s' = setError (error s') s
      /\ if isSearchDisabled s then s' = s /\ req = None /\ dls = []
         else match o with
              | Ok _ => error s' = "" /\ List.length dls = 1
              | Err _ => error s' <> "" /\ dls = []
              end)
  /\ (let '(s', req, dls) := handleDownloadLinesCsv s o in
      s' = setError (error s') s
      /\ if isLinesCsvDisabled s then s' = s /\ req = None /\ dls = []
         else match o with
              | Ok _ => error s' = "" /\ List.length dls = 1
              | Err _ => error s' <> "" /\ dls = []
              end).
Proof.
  destruct s as [fs l w t rs e ld hs].
  unfold executeSearch_csv, executeSearch_begin, executeSearch_finish_csv,
    handleDownloadPartsListCsv, handleDownloadLinesCsv, isLinesCsvDisabled.
  destruct (isSearchDisabled (mkState fs l w t rs e ld hs)) eqn:Hd;
    unfold isSearchDisabled in Hd; cbn in Hd |- *; rewrite Hd.
  - repeat split; reflexivity.
  - destruct o as [data|detail]; cbn.
    + repeat split; reflexivity.
    + repeat split; try reflexivity; discriminate.
Qed.

(** *** The event-level model *)

Section RuntimeFacts.
Import Runtime.

Lemma run_from_invariant (P : Runtime -> Prop) (Q : Event -> Prop) :
  (forall k r ev, Q ev -> P r -> P (step k r ev)) ->
  forall evs k r, Forall Q evs -> P r -> P (run_from k r evs).
Proof.
  intros Hstep evs; induction evs as [|ev evs IH]; intros k r HQ HP; simpl; [exact HP|].
  inversion HQ; subst; apply IH; auto.
Qed.

Lemma run_from_snoc (evs : list Event) (ev : Event) (k : nat) (r : Runtime) :
  run_from k r (evs ++ [ev])%list = step (k + List.length evs) (run_from k r evs) ev.
Proof.
  revert k r; induction evs as [|e evs IH]; intros k r; simpl.
  - now rewrite Nat.add_0_r.
  - rewrite IH; f_equal; lia.
Qed.

Lemma deps_eqb_true (a b : Deps) : deps_eqb a b = true -> a = b.
Proof.
  destruct a as [[[[[v1 l1] w1] t1] d1] h1], b as [[[[[v2 l2] w2] t2] d2] h2]; simpl.
  rewrite !andb_true_iff, Nat.eqb_eq, !String.eqb_eq.
  intros [[[[[-> ->] ->] ->] Hd] Hh].
  apply Bool.eqb_prop in Hd, Hh; now subst.
Qed.

(** The effect either does nothing, only records its dependencies, or
    also posts a silent search. *)
Lemma run_effect_cases (k : nat) (r : Runtime) :
  run_effect k r = r
  \/ run_effect k r = mkRuntime (app r) (files_ver r) (deps_of (files_ver r) (app r))
                               (pending r) (sent r)
  \/ run_effect k r = mkRuntime (setError "" (app r)) (files_ver r)
                               (deps_of (files_ver r) (app r))
                               (pending r ++ [PSilent])%list
                               (sent r ++ [(k, PSilent, files (app r))])%list.
Proof.
  unfold run_effect; destruct (deps_eqb _ _); [now left|right].
  cbn [app files_ver pending sent].
  destruct (hasSearched (app r)); [|now left].
  unfold executeSearch_begin; destruct (isSearchDisabled (app r)); [now left|right].
  reflexivity.
Qed.

Lemma run_effect_settles (k : nat) (r : Runtime) :
  last_deps (run_effect k r) = deps_of (files_ver (run_effect k r)) (app (run_effect k r)).
Proof.
  unfold run_effect; destruct (deps_eqb _ _) eqn:E.
  - now apply deps_eqb_true in E.
  - cbn [app files_ver pending sent last_deps].
    destruct (hasSearched (app r)); [|reflexivity].
    unfold executeSearch_begin; destruct (isSearchDisabled (app r)); reflexivity.
Qed.

Lemma existsb_false_filter {A : Type} (f : A -> bool) (l : list A) :
  existsb f l = false <-> List.length (filter f l) = 0.
Proof.
  induction l as [|x l IH]; simpl; [tauto|].
  destruct (f x); simpl; [split; discriminate|exact IH].
Qed.

Lemma finish_json_loading (silent : bool) (s : AppState) (o : Outcome (list Entry)) :
  isLoading (executeSearch_finish_json silent s o) = if silent then isLoading s else false.
Proof. destruct silent, o; reflexivity. Qed.

Lemma finish_json_files (silent : bool) (s : AppState) (o : Outcome (list Entry)) :
  files (executeSearch_finish_json silent s o) = files s.
Proof. destruct silent, o; reflexivity. Qed.

Lemma finish_json_hasSearched (silent : bool) (s : AppState) (o : Outcome (list Entry)) :
  hasSearched (executeSearch_finish_json silent s o) = hasSearched s.
Proof. destruct silent, o; reflexivity. Qed.

Lemma handleFileChange_loading (sel : list File) (s : AppState) :
  isLoading (handleFileChange sel s) = isLoading s.
Proof. destruct sel; reflexivity. Qed.

Lemma remove_index_existsb {A : Type} (f : A -> bool) (i : nat) (l : list A) (x : A) :
  nth_error l i = Some x -> existsb f l = f x || existsb f (remove_index i l).
Proof.
  revert i; induction l as [|y l IH]; intros [|i] Hn; cbn in Hn |- *; try discriminate.
  - now inversion Hn.
  - rewrite (IH i Hn); destruct (f x), (f y); reflexivity.
Qed.

Lemma remove_index_count {A : Type} (f : A -> bool) (i : nat) (l : list A) (x : A) :
  nth_error l i = Some x ->
  List.length (filter f l) = (if f x then 1 else 0) + List.length (filter f (remove_index i l)).
Proof.
  revert i; induction l as [|y l IH]; intros [|i] Hn; cbn in Hn |- *; try discriminate.
  - inversion Hn; subst; destruct (f x); reflexivity.
  - specialize (IH i Hn); destruct (f y); cbn [List.length]; rewrite IH;
      destruct (f x); lia.
Qed.

(** The CSV download buttons change the state only through [error]. *)
Lemma csv_buttons_set_error (s : AppState) (o : Outcome string) :
  (exists e, fst (fst (handleDownloadPartsListCsv s o)) = setError e s)
  /\ (exists e, fst (fst (handleDownloadLinesCsv s o)) = setError e s).
Proof.
  destruct s as [fs l w t rs e ld hs].
  unfold handleDownloadPartsListCsv, handleDownloadLinesCsv, isLinesCsvDisabled.
  destruct (isSearchDisabled _) eqn:Hd; unfold isSearchDisabled in Hd; cbn in Hd |- *;
    rewrite Hd; destruct o; split; eexists; reflexivity.
Qed.

Definition loading_inv (r : Runtime) : Prop :=
  isLoading (app r) = existsb (pending_eqb PManual) (pending r) /\ manual_pending r <= 1.

Lemma step_loading_inv (k : nat) (r : Runtime) (ev : Event) :
  loading_inv r -> loading_inv (step k r ev).
Proof.
  unfold loading_inv, manual_pending, step; intros [Hl Hc].
  assert (Hh : isLoading (app (handle_event k r ev))
               = existsb (pending_eqb PManual) (pending (handle_event k r ev))
               /\ List.length (filter (pending_eqb PManual) (pending (handle_event k r ev))) <= 1).
  { destruct ev as [sel|i| | |v|v|v|o|i o|o|o]; cbn [handle_event].
    - destruct sel; [now split|]; cbn [app pending with_new_files].
      now rewrite handleFileChange_loading.
    - now split.
    - now split.
    - destruct (isSearchDisabled (app r) || isLoading (app r)) eqn:Hd; [now split|].
      apply orb_false_iff in Hd as [Hd Hld].
      unfold executeSearch_begin; rewrite Hd; cbn [negb andb app pending post].
      rewrite existsb_app, filter_app, length_app; cbn.
      rewrite Hl in Hld; apply existsb_false_filter in Hld; rewrite Hld, orb_true_r.
      split; [reflexivity|lia].
    - now split.
    - now split.
    - now split.
    - destruct (pending r) as [|[|] rest] eqn:Hp; cbn [app pending settle].
      + rewrite Hp; now split.
      + cbn in Hc. split; [|lia].
        cbn [hasSearched setHasSearched isLoading app].
        change (isLoading (setHasSearched true (executeSearch_finish_json false (app r) o))
                = existsb (pending_eqb PManual) rest).
        unfold setHasSearched; cbn [isLoading]; rewrite finish_json_loading.
        symmetry; apply existsb_false_filter; lia.
      + rewrite finish_json_loading; split; [exact Hl|exact Hc].
    - destruct (nth_error (pending r) i) as [[|]|] eqn:Hn; cbn [app pending settle];
        [|(rewrite finish_json_loading; cbn [pending_eqb])|now split];
        pose proof (remove_index_existsb (pending_eqb PManual) _ _ _ Hn) as He;
        pose proof (remove_index_count (pending_eqb PManual) _ _ _ Hn) as Hn';
        cbn [pending_eqb] in He, Hn'.
      + split; [|lia].
        unfold setHasSearched; cbn [isLoading]; rewrite finish_json_loading.
        symmetry; apply existsb_false_filter; lia.
      + split; [rewrite Hl, He; reflexivity|lia].
    - destruct (csv_buttons_set_error (app r) o) as [[e E] _].
      cbn [with_app app pending]; rewrite E; now split.
    - destruct (csv_buttons_set_error (app r) o) as [_ [e E]].
      cbn [with_app app pending]; rewrite E; now split. }
  destruct Hh as [Hl' Hc'].
  destruct (run_effect_cases k (handle_event k r ev)) as [E|[E|E]]; rewrite E;
    cbn [app pending]; [now split|now split|].
  rewrite existsb_app, filter_app, length_app; cbn; rewrite orb_false_r.
  split; [exact Hl'|lia].
Qed.

(** X8.  In every run of part_001, [isLoading] is true exactly when a
    manual search is in flight, and at most one manual search is in flight:
    the search button, disabled while loading, never starts a second one,
    and the silent searches of the effect never touch [isLoading]. *)
Theorem loading_iff_manual_search_pending (evs : list Event) :
  isLoading (app (run evs)) = existsb (pending_eqb PManual) (pending (run evs))
  /\ manual_pending (run evs) <= 1.
Proof.
  apply (run_from_invariant loading_inv (fun _ => True)).
  - intros k r ev _; apply step_loading_inv.
  - apply Forall_forall; auto.
  - split; [reflexivity|cbn; lia].
Qed.

Definition quiet_inv (r : Runtime) : Prop :=
  pending r = [] /\ sent r = [] /\ hasSearched (app r) = false.

Lemma step_quiet_inv (k : nat) (r : Runtime) (ev : Event) :
  is_click_search ev = false -> quiet_inv r -> quiet_inv (step k r ev).
Proof.
  unfold quiet_inv, step; intros Hev [Hp [Hs Hh]].
  assert (H : quiet_inv (handle_event k r ev)).
  { unfold quiet_inv.
    destruct ev as [sel|i| | |v|v|v|o|i o|o|o]; cbn [handle_event]; try discriminate;
      try (now repeat split).
    - destruct sel; [now repeat split|]; now repeat split.
    - rewrite Hp; now repeat split.
    - rewrite Hp; destruct i; now repeat split.
    - destruct (csv_buttons_set_error (app r) o) as [[e E] _].
      cbn [with_app app pending sent]; rewrite E; now repeat split.
    - destruct (csv_buttons_set_error (app r) o) as [_ [e E]].
      cbn [with_app app pending sent]; rewrite E; now repeat split. }
  destruct H as [Hp' [Hs' Hh']].
  unfold run_effect; destruct (deps_eqb _ _); [now repeat split|].
  cbn [app pending sent]; rewrite Hh'; now repeat split.
Qed.

(** X9.  A run of part_001 with no click on the search button posts no
    search request, manual or silent: selecting, removing or clearing
    files, editing L/W/T and the two CSV downloads never trigger a search,
    because the effect only searches once a manual search has set
    [hasSearched]. *)
Theorem no_request_without_click (evs : list Event)
    (Hev : Forall (fun ev => is_click_search ev = false) evs) :
  sent (run evs) = [] /\ pending (run evs) = [] /\ hasSearched (app (run evs)) = false.
Proof.
  assert (H : quiet_inv (run evs)).
  { apply (run_from_invariant quiet_inv (fun ev => is_click_search ev = false)).
    - intros k r ev; apply step_quiet_inv.
    - exact Hev.
    - repeat split. }
  destruct H as [Hp [Hs Hh]]; now repeat split.
Qed.

Lemma no_request_without_click_witness :
  let evs := [EvSelect [file_a]; EvSetL "30"; EvRespond (Ok []); EvRemove 0;
              EvSelect [file_b]; EvDownloadPartsListCsv (Ok "part,file");
              EvDownloadLinesCsv (Err None); EvRespondAt 1 (Ok []); EvClear] in
  Forall (fun ev => is_click_search ev = false) evs
  /\ sent (run evs) = [] /\ pending (run evs) = [] /\ hasSearched (app (run evs)) = false.
Proof.
  cbv zeta.
  split; [repeat constructor|].
  apply no_request_without_click; repeat constructor.
Defined.

(** Dropping files from a selection keeps its signatures distinct. *)
Lemma filtered_selection_distinct (keep : File -> bool) (sel : list File) :
  NoDup (map signature sel) -> NoDup (map signature (filter keep sel)).
Proof.
  induction sel as [|f sel IH]; cbn [filter map]; intros Hsel; [exact Hsel|].
  apply NoDup_cons_iff in Hsel as [Hf Hrest].
  destruct (keep f); [|exact (IH Hrest)].
  apply NoDup_cons; [|exact (IH Hrest)].
  intros Hin; apply in_map_iff in Hin as [g [Hg Hin]].
  rewrite filter_In in Hin; destruct Hin as [Hin _].
  apply Hf; rewrite <- Hg; apply in_map, Hin.
Qed.

Lemma remove_index_in {A : Type} (i : nat) (l : list A) (x : A) :
  In x (remove_index i l) -> In x l.
Proof.
  revert i; induction l as [|y l IH]; intros [|i]; simpl; auto.
  intros [->|H]; [now left|right; now apply (IH i)].
Qed.

Lemma NoDup_map_remove_index {A B : Type} (f : A -> B) (i : nat) (l : list A) :
  NoDup (map f l) -> NoDup (map f (remove_index i l)).
Proof.
  revert i; induction l as [|x l IH]; intros [|i] H; simpl in *; auto.
  - now inversion H.
  - inversion H as [|? ? Hnin Hnd]; subst.
    constructor; [|now apply IH].
    intros Hin; apply Hnin.
    apply in_map_iff in Hin as [y [Hy Hin]].
    rewrite <- Hy; apply in_map; now apply (remove_index_in i).
Qed.

Lemma handleFileChange_distinct (sel : list File) (s : AppState) :
  NoDup (map signature sel) -> NoDup (map signature (files s)) ->
  NoDup (map signature (files (handleFileChange sel s))).
Proof.
  intros Hsel Hprev; destruct sel as [|f sel]; [exact Hprev|].
  cbn [handleFileChange files setHasSearched setFiles].
  rewrite map_app; apply NoDup_app; [exact Hprev| |].
  - now apply filtered_selection_distinct.
  - intros x Hx Hy.
    apply in_map_iff in Hy as [g [Hg Hin]]; apply filter_In in Hin as [_ Hneg].
    rewrite <- Hg in Hx; apply has_signature_in in Hx.
    rewrite Hx in Hneg; discriminate.
Qed.

Lemma run_effect_files (k : nat) (r : Runtime) :
  files (app (run_effect k r)) = files (app r).
Proof.
  destruct (run_effect_cases k r) as [E|[E|E]]; rewrite E; reflexivity.
Qed.

Lemma step_distinct (k : nat) (r : Runtime) (ev : Event) :
  distinct_selection ev -> NoDup (map signature (files (app r))) ->
  NoDup (map signature (files (app (step k r ev)))).
Proof.
  unfold step; intros Hev H; rewrite run_effect_files.
  destruct ev as [sel|i| | |v|v|v|o|i o|o|o]; cbn [handle_event]; try exact H.
  - destruct sel as [|f sel]; [exact H|].
    now apply handleFileChange_distinct.
  - now apply NoDup_map_remove_index.
  - constructor.
  - destruct (isSearchDisabled (app r) || isLoading (app r)); [exact H|].
    unfold executeSearch_begin; destruct (isSearchDisabled (app r)); exact H.
  - destruct (pending r) as [|[|] rest]; cbn [app settle setHasSearched files];
      rewrite ?finish_json_files; exact H.
  - destruct (nth_error (pending r) i) as [[|]|]; cbn [app settle setHasSearched files];
      rewrite ?finish_json_files; exact H.
  - destruct (csv_buttons_set_error (app r) o) as [[e E] _].
    cbn [with_app app]; rewrite E; exact H.
  - destruct (csv_buttons_set_error (app r) o) as [_ [e E]].
    cbn [with_app app]; rewrite E; exact H.
Qed.

(** X10.  As long as each selection of the file dialog has no two files
    with one signature, the selected files of part_001 never hold two files
    with one signature, hence (the signature being injective) never the same
    file twice, whatever files are selected, removed or cleared. *)
Theorem files_keep_distinct_signatures (evs : list Event)
    (Hev : Forall distinct_selection evs) :
  NoDup (map signature (files (app (run evs)))) /\ NoDup (files (app (run evs))).
Proof.
  assert (H : NoDup (map signature (files (app (run evs))))).
  { apply (run_from_invariant (fun r => NoDup (map signature (files (app r))))
                              distinct_selection).
    - intros k r ev; apply step_distinct.
    - exact Hev.
    - constructor. }
  split; [exact H|exact (NoDup_map_inv _ _ H)].
Qed.

Lemma files_keep_distinct_signatures_witness :
  let evs := [EvSelect [file_a; file_b]; EvSelect [file_b; file_a]; EvRemove 0;
              EvSelect [file_a]] in
  Forall distinct_selection evs
  /\ NoDup (map signature (files (app (run evs)))) /\ NoDup (files (app (run evs))).
Proof.
  cbv zeta.
  assert (Hev : Forall distinct_selection
                  [EvSelect [file_a; file_b]; EvSelect [file_b; file_a]; EvRemove 0;
                   EvSelect [file_a]]).
  { repeat constructor; cbn; intros Hin; repeat destruct Hin as [Hin|Hin];
      try discriminate; contradiction. }
  split; [exact Hev|].
  apply files_keep_distinct_signatures; exact Hev.
Defined.

Lemma run_settled (evs : list Event) :
  last_deps (run evs) = deps_of (files_ver (run evs)) (app (run evs)).
Proof.
  apply (run_from_invariant (fun r => last_deps r = deps_of (files_ver r) (app r))
                            (fun _ => True)).
  - intros k r ev _ _; apply run_effect_settles.
  - apply Forall_forall; auto.
  - reflexivity.
Qed.

Lemma deps_eqb_refl (d : Deps) : deps_eqb d d = true.
Proof.
  destruct d as [[[[[v l] w] t] d] h]; cbn.
  rewrite Nat.eqb_refl, !String.eqb_refl; destruct d, h; reflexivity.
Qed.

Lemma click_then_respond_sent (k : nat) (r : Runtime) (o : Outcome (list Entry)) :
  last_deps r = deps_of (files_ver r) (app r) ->
  hasSearched (app r) = false -> isLoading (app r) = false -> files (app r) <> [] ->
  sent (step (S k) (step k r EvClickSearch) (EvRespondAt (List.length (pending r)) o))
  = (sent r ++ [(k, PManual, files (app r)); (S k, PSilent, files (app r))])%list.
Proof.
  destruct r as [[fs l w t rs e ld hs] v ds p sn];
    cbn [app last_deps files_ver pending sent files hasSearched isLoading].
  intros -> -> -> Hfs; destruct fs as [|f fs]; [contradiction|].
  assert (E1 : step k (mkRuntime (mkState (f :: fs) l w t rs e false false) v
                         (deps_of v (mkState (f :: fs) l w t rs e false false)) p sn)
                    EvClickSearch
               = mkRuntime (mkState (f :: fs) l w t rs "" true false) v
                           (deps_of v (mkState (f :: fs) l w t rs e false false))
                           (p ++ [PManual])%list (sn ++ [(k, PManual, f :: fs)])%list).
  { unfold step, run_effect; cbn -[deps_eqb deps_of].
    change (deps_of v (mkState (f :: fs) l w t rs "" true false))
      with (deps_of v (mkState (f :: fs) l w t rs e false false)).
    now rewrite deps_eqb_refl. }
  rewrite E1; unfold step, run_effect; cbn [handle_event pending].
  rewrite nth_error_app2, Nat.sub_diag by lia.
  destruct o; cbn; rewrite Nat.eqb_refl, !String.eqb_refl; cbn;
    rewrite <- app_assoc; reflexivity.
Qed.

(** X11.  A manual search of part_001 started while [hasSearched] is false
    (the first search, and the first one after every change of the files)
    is sent twice when its response arrives before any other event: once
    on the click, and once more as a silent search for the same files,
    posted by the effect as soon as [hasSearched] becomes true.  This holds
    whatever other silent searches are still in flight. *)
Theorem manual_search_sent_twice (evs : list Event) (o : Outcome (list Entry))
    (Hh : hasSearched (app (run evs)) = false) (Hl : isLoading (app (run evs)) = false)
    (Hf : files (app (run evs)) <> []) :
  sent (run (evs ++ [EvClickSearch; EvRespondAt (List.length (pending (run evs))) o]))
  = (sent (run evs)
     ++ [(List.length evs, PManual, files (app (run evs)));
         (S (List.length evs), PSilent, files (app (run evs)))])%list.
Proof.
  unfold run.
  change [EvClickSearch; EvRespondAt (List.length (pending (run_from 0 init evs))) o]
    with ([EvClickSearch] ++ [EvRespondAt (List.length (pending (run_from 0 init evs))) o])%list.
  rewrite app_assoc, !run_from_snoc, length_app; cbn [Nat.add List.length].
  replace (List.length evs + 1) with (S (List.length evs)) by lia.
  apply click_then_respond_sent; [apply run_settled|exact Hh|exact Hl|exact Hf].
Qed.

Lemma manual_search_sent_twice_witness :
  let evs := [EvSelect [file_a]; EvClickSearch; EvRespond (Ok []); EvSelect [file_b]] in
  pending (run evs) = [PSilent]
  /\ hasSearched (app (run evs)) = false /\ isLoading (app (run evs)) = false
  /\ files (app (run evs)) <> []
  /\ sent (run (evs ++ [EvClickSearch; EvRespondAt (List.length (pending (run evs))) (Ok [])]))
     = (sent (run evs)
        ++ [(List.length evs, PManual, files (app (run evs)));
            (S (List.length evs), PSilent, files (app (run evs)))])%list.
Proof.
  cbv zeta.
  split; [reflexivity|split; [reflexivity|split; [reflexivity|split; [discriminate|]]]].
  apply manual_search_sent_twice; [reflexivity|reflexivity|discriminate].
Defined.



Lemma edit_field_sent (k : nat) (r : Runtime) (vL vW vT : string) :
  last_deps r = deps_of (files_ver r) (app r) ->
  let again (changed : bool) :=
    if hasSearched (app r) && negb (isSearchDisabled (app r)) && changed
    then [(k, PSilent, files (app r))] else [] in
  sent (step k r (EvSetL vL)) = (sent r ++ again (negb (String.eqb vL (lValue (app r)))))%list
  /\ sent (step k r (EvSetW vW)) = (sent r ++ again (negb (String.eqb vW (wValue (app r)))))%list
  /\ sent (step k r (EvSetT vT)) = (sent r ++ again (negb (String.eqb vT (tValue (app r)))))%list.
Proof.
  destruct r as [[fs l w t rs e ld hs] v ds p sn]; cbn [app last_deps files_ver sent].
  intros ->; cbv zeta.
  unfold step, run_effect; cbn [handle_event with_app app files_ver last_deps pending sent].
  cbn; rewrite ?Nat.eqb_refl, ?String.eqb_refl.
  repeat split;
    [destruct (String.eqb vL l)|destruct (String.eqb vW w)|destruct (String.eqb vT t)];
    destruct hs, fs; cbn; rewrite ?andb_true_r, ?app_nil_r; reflexivity.
Qed.

(** X14.  Once a search has been made ([hasSearched]) and files are
    selected, changing L, W or T makes the effect of part_001 post one
    silent search with the current files; setting a field to its current
    value, or editing before any search or with no file, posts nothing. *)
Theorem edit_criteria_re_searches (evs : list Event) (vL vW vT : string) :
  let r := run evs in
  let again (changed : bool) :=
    if hasSearched (app r) && negb (isSearchDisabled (app r)) && changed
    then [(List.length evs, PSilent, files (app r))] else [] in
  sent (run (evs ++ [EvSetL vL])) = (sent r ++ again (negb (String.eqb vL (lValue (app r)))))%list
  /\ sent (run (evs ++ [EvSetW vW])) = (sent r ++ again (negb (String.eqb vW (wValue (app r)))))%list
  /\ sent (run (evs ++ [EvSetT vT])) = (sent r ++ again (negb (String.eqb vT (tValue (app r)))))%list.
Proof.
  cbv zeta; unfold run; rewrite !run_from_snoc; cbn [Nat.add].
  exact (edit_field_sent (List.length evs) (run_from 0 init evs) vL vW vT (run_settled evs)).
Qed.

End RuntimeFacts.

(** *** The sorted search of part_000 *)

Section Part000_sort_facts.
Local Open Scope Z_scope.

Variable localeCompare : string -> string -> Z.
Hypothesis localeCompare_antisym :
  forall a b, 0 <= localeCompare a b -> localeCompare b a <= 0.

Lemma compare_rows_antisym (a b : Row) :
  0 <= compare_rows localeCompare a b -> compare_rows localeCompare b a <= 0.
Proof.
  unfold compare_rows; rewrite String.eqb_sym.
  destruct (String.eqb (part_number b) (part_number a)); cbn [negb];
    apply localeCompare_antisym.
Qed.

Lemma insert_row_perm (x : Row) (l : list Row) :
  Permutation (insert_row localeCompare x l) (x :: l).
Proof.
  induction l as [|y l IH]; cbn [insert_row]; [reflexivity|].
  destruct (Z.ltb _ 0); [reflexivity|].
  rewrite IH; apply perm_swap.
Qed.

Lemma sort_rows_acc_perm (rows acc : list Row) :
  Permutation (fold_left (fun acc x => insert_row localeCompare x acc) rows acc)
              (rows ++ acc)%list.
Proof.
  revert acc; induction rows as [|x rows IH]; intros acc; cbn [fold_left app]; [reflexivity|].
  rewrite IH, insert_row_perm; apply Permutation_sym, Permutation_middle.
Qed.

Lemma insert_row_sorted_under (x y : Row) (l : list Row) :
  sorted_wrt (compare_rows localeCompare) (y :: l) = true ->
  compare_rows localeCompare y x <= 0 ->
  sorted_wrt (compare_rows localeCompare) (y :: insert_row localeCompare x l) = true.
Proof.
  revert y; induction l as [|z l IH]; intros y Hs Hyx.
  - cbn; rewrite andb_true_r; now apply Z.leb_le.
  - cbn [sorted_wrt] in Hs; apply andb_true_iff in Hs as [Hyz Hs].
    cbn [insert_row]; destruct (Z.ltb_spec (compare_rows localeCompare x z) 0) as [Hxz|Hxz].
    + cbn [sorted_wrt]; rewrite Hs, (proj2 (Z.leb_le _ _) Hyx).
      rewrite (proj2 (Z.leb_le _ _) (Z.lt_le_incl _ _ Hxz)); reflexivity.
    + cbn [sorted_wrt]; rewrite Hyz; cbn [andb].
      apply IH; [exact Hs|now apply compare_rows_antisym].
Qed.

Lemma insert_row_sorted (x : Row) (l : list Row) :
  sorted_wrt (compare_rows localeCompare) l = true ->
  sorted_wrt (compare_rows localeCompare) (insert_row localeCompare x l) = true.
Proof.
  destruct l as [|y l]; intros Hs; [reflexivity|].
  cbn [insert_row]; destruct (Z.ltb_spec (compare_rows localeCompare x y) 0) as [Hxy|Hxy].
  - cbn [sorted_wrt]; rewrite (proj2 (Z.leb_le _ _) (Z.lt_le_incl _ _ Hxy)); exact Hs.
  - apply insert_row_sorted_under; [exact Hs|now apply compare_rows_antisym].
Qed.

Lemma sort_rows_acc_sorted (rows acc : list Row) :
  sorted_wrt (compare_rows localeCompare) acc = true ->
  sorted_wrt (compare_rows localeCompare)
    (fold_left (fun acc x => insert_row localeCompare x acc) rows acc) = true.
Proof.
  revert acc; induction rows as [|x rows IH]; intros acc Hs; [exact Hs|].
  apply IH; now apply insert_row_sorted.
Qed.

(** X13.  [handleSearch] of part_000 does nothing with no file or while
    loading.  Otherwise it ends not loading, with the same files; on
    success the table holds exactly the rows of the response, sorted by
    part number and then file name with [localeCompare] (for any
    [localeCompare] whose sign is antisymmetric), and no error; on failure
    the table is empty, as it was cleared before the request, and the
    error message is shown. *)
Theorem handleSearch_part000_sorted (s : AppState) (o : Outcome (list Entry)) :
  let '(s', req) := handleSearch_part000 localeCompare s o in
  if isSearchDisabled_part000 s then s' = s /\ req = None
  else files s' = files s /\ isLoading s' = false /\ req <> None
       /\ match o with
          | Ok data =>
              Permutation (results s') (flatten data)
              /\ sorted_wrt (compare_rows localeCompare) (results s') = true
              /\ error s' = ""
          | Err detail => results s' = [] /\ error s' = errmsg detail msg_extract_failed
          end.
Proof.
  unfold handleSearch_part000, handleSearch_part000_begin.
  destruct (isSearchDisabled_part000 s); [now split|].
  cbn [handleSearch_part000_finish].
  destruct o as [data|detail]; cbn.
  - repeat split; try discriminate.
    + unfold sort_rows; rewrite sort_rows_acc_perm, app_nil_r; reflexivity.
    + unfold sort_rows; now apply sort_rows_acc_sorted.
  - repeat split; discriminate.
Qed.

End Part000_sort_facts.

Lemma codepoint_compare_antisym (a b : string) :
  (0 <= codepoint_compare a b -> codepoint_compare b a <= 0)%Z.
Proof.
  unfold codepoint_compare; rewrite String.compare_antisym.
  destruct (String.compare b a); cbn; lia.
Qed.

Lemma handleSearch_part000_sorted_witness :
  (forall a b, 0 <= codepoint_compare a b -> codepoint_compare b a <= 0)%Z
  /\ (let '(s', req) := handleSearch_part000 codepoint_compare state_ab
                          (Ok [mkEntry "b.pdf" ["Z-9"; "A-1"]; mkEntry "a.pdf" ["A-1"]]) in
      if isSearchDisabled_part000 state_ab then s' = state_ab /\ req = None
      else files s' = files state_ab /\ isLoading s' = false /\ req <> None
           /\ Permutation (results s')
                 (flatten [mkEntry "b.pdf" ["Z-9"; "A-1"]; mkEntry "a.pdf" ["A-1"]])
           /\ sorted_wrt (compare_rows codepoint_compare) (results s') = true
           /\ error s' = "").
Proof.
  split; [exact codepoint_compare_antisym|].
  exact (handleSearch_part000_sorted codepoint_compare codepoint_compare_antisym state_ab
           (Ok [mkEntry "b.pdf" ["Z-9"; "A-1"]; mkEntry "a.pdf" ["A-1"]])).
Defined.
